(** * Al-TB: pattern detection and backtest simulator

    A shallow embedding of [patterns.py], [backtesting.py] and [config.py].

    Numbers.  The Python code computes on float64 values (pandas columns,
    Python floats).  The embedding is written once over an interface [Arith]
    of the operations the code uses, and every theorem that needs no algebraic
    law is proved for every implementation of that interface.  The few laws
    that are needed are collected in [ArithLaws]; exact rational arithmetic
    ([Q]) implements both and is used for the concrete runs, and binary64
    with the division of numpy ([Float_Arith]) implements the interface.

    Errors.  A Python exception (KeyError, IndexError, ZeroDivisionError,
    a failed tuple unpacking) is modelled by [None] in the option monad. *)

From Stdlib Require Import List String Ascii ZArith QArith Qabs Bool Arith Lia Lqa.
From Stdlib Require Import PrimFloat.
Import ListNotations.
Open Scope string_scope.
Open Scope Z_scope.
Open Scope nat_scope.
Open Scope list_scope.

(** ** The error monad *)

Definition bind {A B : Type} (m : option A) (k : A -> option B) : option B :=
  match m with
  | Some a => k a
  | None => None
  end.

Notation "x <- m ;; k" := (bind m (fun x => k))
  (at level 61, m at next level, right associativity).

(** [for x in xs: body] threading the loop state [s]; an exception raised by
    the body leaves the loop. *)
Fixpoint for_each {A S : Type} (xs : list A) (body : A -> S -> option S) (s : S)
  : option S :=
  match xs with
  | [] => Some s
  | x :: xs' => s' <- body x s ;; for_each xs' body s'
  end.

(** Python's [range(a, b)] for non-negative [a]: empty when [b <= a]. *)
Definition range (a b : nat) : list nat := seq a (b - a).

(** ** Arithmetic interface *)

Class Arith (R : Type) := {
  of_nat : nat -> R;            (* an int literal, or an int used as a float *)
  add : R -> R -> R;
  sub : R -> R -> R;
  mul : R -> R -> R;
  div : R -> R -> option R;     (* None: the division raises *)
  ltb : R -> R -> bool;
  leb : R -> R -> bool;
  abs : R -> R
}.

Declare Scope arith_scope.
Delimit Scope arith_scope with ar.
Infix "[+]" := add (at level 50, left associativity) : arith_scope.
Infix "[-]" := sub (at level 50, left associativity) : arith_scope.
Infix "[*]" := mul (at level 40, left associativity) : arith_scope.
Infix "[<]" := ltb (at level 65, no associativity) : arith_scope.
Infix "[<=]" := leb (at level 65, no associativity) : arith_scope.
Open Scope arith_scope.

(** The laws used by the claims that need arithmetic reasoning. *)
Class ArithLaws (R : Type) `{Arith R} : Prop := {
  (* a division by a positive number does not raise *)
  div_pos : forall x y, of_nat 0 [<] y = true -> div x y <> None;
  (* strict order is irreflexive *)
  ltb_irrefl : forall x, x [<] x = false
}.

(** Exact rationals; a division by zero raises. *)
#[export] Instance Q_Arith : Arith Q := {
  of_nat n := inject_Z (Z.of_nat n);
  add := Qplus;
  sub := Qminus;
  mul := Qmult;
  div x y := if Qeq_bool y 0 then None else Some (Qdiv x y);
  ltb x y := negb (Qle_bool y x);
  leb := Qle_bool;
  abs := Qabs
}.

(** Binary64 floating point with the division of numpy, which returns an
    infinity or a nan on a zero divisor and never raises. *)
Fixpoint float_of_nat (n : nat) : float :=
  match n with
  | O => PrimFloat.zero
  | S n' => PrimFloat.add (float_of_nat n') PrimFloat.one
  end.

#[export] Instance Float_Arith : Arith float := {
  of_nat := float_of_nat;
  add := PrimFloat.add;
  sub := PrimFloat.sub;
  mul := PrimFloat.mul;
  div x y := Some (PrimFloat.div x y);
  ltb := PrimFloat.ltb;
  leb := PrimFloat.leb;
  abs := PrimFloat.abs
}.

(** ** Python containers *)

(** A [dict] with string keys: insertion-ordered, keys unique. *)
Definition dict (V : Type) : Type := list (string * V).

Fixpoint dict_get {V} (k : string) (d : dict V) : option V :=
  match d with
  | [] => None
  | (k', v) :: d' => if String.eqb k k' then Some v else dict_get k d'
  end.

Definition dict_mem {V} (k : string) (d : dict V) : bool :=
  match dict_get k d with Some _ => true | None => false end.

(** [d[k] = v]: overwrite in place, or append a new entry. *)
Fixpoint dict_set {V} (k : string) (v : V) (d : dict V) : dict V :=
  match d with
  | [] => [(k, v)]
  | (k', v') :: d' =>
      if String.eqb k k' then (k', v) :: d' else (k', v') :: dict_set k v d'
  end.

(** [del d[k]] for a key that is present: no entry for [k] remains. *)
Fixpoint dict_del {V} (k : string) (d : dict V) : dict V :=
  match d with
  | [] => []
  | (k', v') :: d' =>
      if String.eqb k k' then dict_del k d' else (k', v') :: dict_del k d'
  end.

Definition dict_keys {V} (d : dict V) : list string := map fst d.
Definition dict_values {V} (d : dict V) : list V := map snd d.

(** [l[a:b]] for [0 <= a]. *)
Definition slice {A} (a b : nat) (l : list A) : list A :=
  firstn (b - a) (skipn a l).

(** [s.split(sep)] for a one-character separator. *)
Fixpoint split_on (sep : ascii) (s : string) : list string :=
  match s with
  | EmptyString => [EmptyString]
  | String c s' =>
      if Ascii.eqb c sep then EmptyString :: split_on sep s'
      else match split_on sep s' with
           | [] => [String c EmptyString]
           | w :: ws => String c w :: ws
           end
  end.

(** ** config.py *)

Record TradingConfig (R : Type) := {
  TIMEFRAMES : list string;
  SYMBOLS : list string;
  LIQUIDITY_THRESHOLD : R;
  ORDER_BLOCK_LOOKBACK : nat;
  IMBALANCE_THRESHOLD : R;
  POSITION_SIZE : R;
  MAX_POSITIONS : nat;          (* a number of positions *)
  STOP_LOSS_PERCENT : R;
  TAKE_PROFIT_PERCENT : R
}.
Arguments TIMEFRAMES {R}.
Arguments SYMBOLS {R}.
Arguments LIQUIDITY_THRESHOLD {R}.
Arguments ORDER_BLOCK_LOOKBACK {R}.
Arguments IMBALANCE_THRESHOLD {R}.
Arguments POSITION_SIZE {R}.
Arguments MAX_POSITIONS {R}.
Arguments STOP_LOSS_PERCENT {R}.
Arguments TAKE_PROFIT_PERCENT {R}.


(** ** Candle series *)

(** One row of the OHLC data frame; the index value is [timestamp]. *)
Record Candle (R : Type) := {
  timestamp : Z;
  Open : R;
  High : R;
  Low : R;
  Close : R
}.
Arguments timestamp {R}.
Arguments Open {R}.
Arguments High {R}.
Arguments Low {R}.
Arguments Close {R}.

Definition DataFrame (R : Type) : Type := list (Candle R).

(** [df.iloc[i]] for [0 <= i]: IndexError past the end. *)
Definition iloc {R} (df : DataFrame R) (i : nat) : option (Candle R) :=
  nth_error df i.

(** ** patterns.py *)

Inductive LevelType := resistance | support.
Inductive PatternType := bullish | bearish.

Record Level (R : Type) := {
  level_type : LevelType;
  price : R;
  level_timestamp : Z
}.
Arguments level_type {R}.
Arguments price {R}.
Arguments level_timestamp {R}.

(** The record shared by order blocks and fair value gaps. *)
Record Zone (R : Type) := {
  zone_type : PatternType;
  top : R;
  bottom : R;
  zone_timestamp : Z
}.
Arguments zone_type {R}.
Arguments top {R}.
Arguments bottom {R}.
Arguments zone_timestamp {R}.

Record Patterns (R : Type) := {
  liquidity_levels : list (Level R);
  order_blocks : list (Zone R);
  fair_value_gaps : list (Zone R)
}.
Arguments liquidity_levels {R}.
Arguments order_blocks {R}.
Arguments fair_value_gaps {R}.

Section PatternAnalyzer.
Context {R : Type} `{Arith R}.
Variable config : TradingConfig R.

Definition window : nat := 5.

(** [all(x > series)] on the High column of a slice. *)
Definition all_high_below (x : R) (cs : DataFrame R) : bool :=
  forallb (fun c => High c [<] x) cs.

(** [all(x < series)] on the Low column of a slice. *)
Definition all_low_above (x : R) (cs : DataFrame R) : bool :=
  forallb (fun c => x [<] Low c) cs.

Definition swing_high (df : DataFrame R) (i : nat) (c : Candle R) : bool :=
  all_high_below (High c) (slice (i - window) i df)
  && all_high_below (High c) (slice (i + 1) (i + window + 1) df).

Definition swing_low (df : DataFrame R) (i : nat) (c : Candle R) : bool :=
  all_low_above (Low c) (slice (i - window) i df)
  && all_low_above (Low c) (slice (i + 1) (i + window + 1) df).

Definition liquidity_step (df : DataFrame R) (i : nat) (levels : list (Level R))
  : option (list (Level R)) :=
  c <- iloc df i ;;
  let levels1 :=
    if swing_high df i c
    then levels ++ [{| level_type := resistance; price := High c;
                       level_timestamp := timestamp c |}]
    else levels in
  let levels2 :=
    if swing_low df i c
    then levels1 ++ [{| level_type := support; price := Low c;
                        level_timestamp := timestamp c |}]
    else levels1 in
  Some levels2.

Definition identify_liquidity_levels (df : DataFrame R) : option (list (Level R)) :=
  for_each (range window (List.length df - window)) (liquidity_step df) [].

(** [a and b] where evaluating [b] may raise: [b] is not evaluated when [a]
    is false. *)
Definition and_then (a : bool) (b : option bool) : option bool :=
  if a then b else Some false.

(** [(High - Low) / Low > LIQUIDITY_THRESHOLD] on one candle. *)
Definition range_exceeds (c : Candle R) : option bool :=
  r <- div (High c [-] Low c) (Low c) ;;
  Some (LIQUIDITY_THRESHOLD config [<] r).

Definition zone_of (t : PatternType) (c : Candle R) : Zone R :=
  {| zone_type := t; top := High c; bottom := Low c;
     zone_timestamp := timestamp c |}.

Definition order_block_step (df : DataFrame R) (i : nat) (obs : list (Zone R))
  : option (list (Zone R)) :=
  c <- iloc df i ;;
  n <- iloc df (i + 1) ;;
  bull <- and_then (Open c [<] Close c)
            (and_then (Close n [<] Open n) (range_exceeds n)) ;;
  let obs1 := if bull then obs ++ [zone_of bullish c] else obs in
  bear <- and_then (Close c [<] Open c)
            (and_then (Open n [<] Close n) (range_exceeds n)) ;;
  let obs2 := if bear then obs1 ++ [zone_of bearish c] else obs1 in
  Some obs2.

Definition identify_order_blocks (df : DataFrame R) : option (list (Zone R)) :=
  for_each (range 0 (List.length df - 1)) (order_block_step df) [].

Definition fvg_step (df : DataFrame R) (i : nat) (gaps : list (Zone R))
  : option (list (Zone R)) :=
  p <- iloc df (i - 1) ;;
  c <- iloc df i ;;
  n <- iloc df (i + 1) ;;
  gaps1 <-
    (if High p [<] Low n then
       gap_size <- div (Low n [-] High p) (High p) ;;
       Some (if IMBALANCE_THRESHOLD config [<] gap_size
             then gaps ++ [{| zone_type := bullish; top := Low n;
                              bottom := High p;
                              zone_timestamp := timestamp c |}]
             else gaps)
     else Some gaps) ;;
  (if High n [<] Low p then
     gap_size <- div (Low p [-] High n) (High n) ;;
     Some (if IMBALANCE_THRESHOLD config [<] gap_size
           then gaps1 ++ [{| zone_type := bearish; top := Low p;
                             bottom := High n;
                             zone_timestamp := timestamp c |}]
           else gaps1)
   else Some gaps1).

Definition identify_fair_value_gaps (df : DataFrame R) : option (list (Zone R)) :=
  for_each (range 1 (List.length df - 1)) (fvg_step df) [].

Definition analyze_patterns (df : DataFrame R) : option (Patterns R) :=
  lv <- identify_liquidity_levels df ;;
  ob <- identify_order_blocks df ;;
  fvg <- identify_fair_value_gaps df ;;
  Some {| liquidity_levels := lv; order_blocks := ob; fair_value_gaps := fvg |}.

End PatternAnalyzer.

(** ** backtesting.py *)

Inductive Side := BUY | SELL.

Record Position (R : Type) := {
  side : Side;
  entry_price : R;
  stop_loss : R;
  take_profit : R;
  position_size : R;            (* quantity in the base asset *)
  cost : R;                     (* reserved amount in the quote asset *)
  pattern : dict (Patterns R);
  pos_timestamp : Z
}.
Arguments side {R}.
Arguments entry_price {R}.
Arguments stop_loss {R}.
Arguments take_profit {R}.
Arguments position_size {R}.
Arguments cost {R}.
Arguments pattern {R}.
Arguments pos_timestamp {R}.

Record Trade (R : Type) := {
  trade_symbol : string;
  trade_side : Side;
  trade_entry_price : R;
  trade_exit_price : R;
  trade_position_size : R;
  pnl : R;
  pnl_percent : R;
  entry_time : Z;
  exit_time : Z;
  reason : string;
  trade_pattern : dict (Patterns R)
}.
Arguments trade_symbol {R}.
Arguments trade_side {R}.
Arguments trade_entry_price {R}.
Arguments trade_exit_price {R}.
Arguments trade_position_size {R}.
Arguments pnl {R}.
Arguments pnl_percent {R}.
Arguments entry_time {R}.
Arguments exit_time {R}.
Arguments reason {R}.
Arguments trade_pattern {R}.

(** The mutable attributes of a [Backtester]. *)
Record State (R : Type) := {
  balance : R;
  positions : dict (Position R);
  trades_history : list (Trade R)
}.
Arguments balance {R}.
Arguments positions {R}.
Arguments trades_history {R}.

Record Snapshot (R : Type) := {
  snap_timestamp : Z;
  snap_balance : R
}.
Arguments snap_timestamp {R}.
Arguments snap_balance {R}.

(** [float('inf')] is the only non-finite value the code writes. *)
Inductive Ext (R : Type) := Fin (r : R) | Inf.
Arguments Fin {R}.
Arguments Inf {R}.

Record Metrics (R : Type) := {
  total_trades : nat;
  profitable_trades : nat;
  win_rate : R;
  total_pnl : R;
  total_return : R;
  average_pnl : R;
  max_drawdown : R;
  final_balance : R;
  profit_factor : Ext R
}.
Arguments total_trades {R}.
Arguments profitable_trades {R}.
Arguments win_rate {R}.
Arguments total_pnl {R}.
Arguments total_return {R}.
Arguments average_pnl {R}.
Arguments max_drawdown {R}.
Arguments final_balance {R}.
Arguments profit_factor {R}.

Record Results (R : Type) := {
  trades : list (Trade R);
  balance_history : list (Snapshot R);
  metrics : Metrics R
}.
Arguments trades {R}.
Arguments balance_history {R}.
Arguments metrics {R}.

(** [index.get_indexer([t], method='nearest')[0]] of pandas, on the index
    values of a frame: a position, or -1; [None] when pandas raises.  The
    backtester is parametric in it. *)
Class IndexLookup := {
  get_indexer_nearest : list Z -> Z -> option Z
}.

(** The lookup on an ascending index: the position whose value is nearest to
    [t], the later one on a tie, -1 on an empty index. *)
Fixpoint nearest_from (best : Z) (bestd : Z) (i : Z) (idx : list Z) (t : Z) : Z :=
  match idx with
  | [] => best
  | x :: idx' =>
      if (Z.abs (x - t) <=? bestd)%Z
      then nearest_from i (Z.abs (x - t)) (i + 1)%Z idx' t
      else nearest_from best bestd (i + 1)%Z idx' t
  end.

Definition nearest_index (idx : list Z) (t : Z) : option Z :=
  match idx with
  | [] => Some (-1)%Z
  | x :: idx' => Some (nearest_from 0%Z (Z.abs (x - t)) 1%Z idx' t)
  end.

Definition nearest_lookup : IndexLookup :=
  {| get_indexer_nearest := nearest_index |}.

(** [l[-1]] of a list. *)
Fixpoint last_error {A} (l : list A) : option A :=
  match l with
  | [] => None
  | [x] => Some x
  | _ :: l' => last_error l'
  end.

Section Backtester.
Context {R : Type} `{Arith R} `{IndexLookup}.
Variable config : TradingConfig R.
Variable initial_balance : R.

Definition init_state : State R :=
  {| balance := initial_balance; positions := []; trades_history := [] |}.

Definition calculate_position_size (st : State R) : R :=
  balance st [*] POSITION_SIZE config.

Definition open_position (st : State R) (symbol : string) (sd : Side)
    (price : R) (time : Z) (pattern_info : dict (Patterns R))
  : option (State R) :=
  if MAX_POSITIONS config <=? List.length (positions st) then Some st
  else
    let size := calculate_position_size st in
    let cst := size in
    if balance st [<] cst then Some st
    else
      let sl := match sd with
                | BUY => price [*] (of_nat 1 [-] STOP_LOSS_PERCENT config)
                | SELL => price [*] (of_nat 1 [+] STOP_LOSS_PERCENT config)
                end in
      let tp := match sd with
                | BUY => price [*] (of_nat 1 [+] TAKE_PROFIT_PERCENT config)
                | SELL => price [*] (of_nat 1 [-] TAKE_PROFIT_PERCENT config)
                end in
      qty <- div size price ;;
      Some {| balance := balance st [-] cst;
              positions :=
                dict_set symbol
                  {| side := sd; entry_price := price; stop_loss := sl;
                     take_profit := tp; position_size := qty; cost := cst;
                     pattern := pattern_info; pos_timestamp := time |}
                  (positions st);
              trades_history := trades_history st |}.

Definition position_pnl (pos : Position R) (exit_price : R) : R :=
  match side pos with
  | BUY => (exit_price [-] entry_price pos) [*] position_size pos
  | SELL => (entry_price pos [-] exit_price) [*] position_size pos
  end.

Definition close_position (st : State R) (symbol : string) (exit_price : R)
    (time : Z) (why : string) : option (State R) :=
  match dict_get symbol (positions st) with
  | None => Some st
  | Some pos =>
      let p := position_pnl pos exit_price in
      let balance' := balance st [+] (cost pos [+] p) in
      pct <- div p (cost pos) ;;
      let trade_record :=
        {| trade_symbol := symbol; trade_side := side pos;
           trade_entry_price := entry_price pos;
           trade_exit_price := exit_price;
           trade_position_size := position_size pos;
           pnl := p; pnl_percent := pct [*] of_nat 100;
           entry_time := pos_timestamp pos; exit_time := time;
           reason := why; trade_pattern := pattern pos |} in
      Some {| balance := balance';
              positions := dict_del symbol (positions st);
              trades_history := trades_history st ++ [trade_record] |}
  end.

(** The [symbol -> [timeframe]] table built from the keys of the data. *)
Definition timeframes_step (item : string * DataFrame R)
    (tfs : dict (list string)) : option (dict (list string)) :=
  match split_on "_"%char (fst item) with
  | [symbol; timeframe] =>
      let tfs1 := if dict_mem symbol tfs then tfs else dict_set symbol [] tfs in
      l <- dict_get symbol tfs1 ;;
      Some (dict_set symbol (l ++ [timeframe]) tfs1)
  | _ => None
  end.

Definition data_key (symbol timeframe : string) : string :=
  (symbol ++ "_" ++ timeframe)%string.

(** The trailing window of one timeframe at [current_time], analysed. *)
Definition analyze_timeframe (historical_data : dict (DataFrame R))
    (symbol : string) (current_time : Z) (timeframe : string)
    (by_tf : dict (Patterns R)) : option (dict (Patterns R)) :=
  df_timeframe <- dict_get (data_key symbol timeframe) historical_data ;;
  current_idx <- get_indexer_nearest (map timestamp df_timeframe) current_time ;;
  if (0 <=? current_idx)%Z then
    let lookback := Z.min (current_idx + 1) 100 in
    let analysis_df :=
      slice (Z.to_nat (current_idx - lookback + 1))
            (Z.to_nat (current_idx + 1)) df_timeframe in
    p <- analyze_patterns config analysis_df ;;
    Some (dict_set timeframe p by_tf)
  else Some by_tf.

Definition vote (z : Zone R) (signals : nat * nat) : nat * nat :=
  match zone_type z with
  | bullish => (fst signals + 1, snd signals)
  | bearish => (fst signals, snd signals + 1)
  end.

(** The votes of one timeframe: its latest order block and its latest fair
    value gap. *)
Definition timeframe_votes (signals : nat * nat) (p : Patterns R) : nat * nat :=
  let signals1 :=
    match last_error (order_blocks p) with
    | Some latest_ob => vote latest_ob signals
    | None => signals
    end in
  match last_error (fair_value_gaps p) with
  | Some latest_fvg => vote latest_fvg signals1
  | None => signals1
  end.

(** [(buy_signals, sell_signals)]. *)
Definition count_signals (by_tf : dict (Patterns R)) : nat * nat :=
  fold_left timeframe_votes (dict_values by_tf) (0, 0).

(** Exit of the open position of [symbol], or entry when it has none. *)
Definition manage_positions (st : State R) (symbol : string)
    (current_price : R) (current_time : Z) (signals : nat * nat)
    (by_tf : dict (Patterns R)) : option (State R) :=
  match dict_get symbol (positions st) with
  | Some pos =>
      match side pos with
      | BUY =>
          if current_price [<=] stop_loss pos
          then close_position st symbol current_price current_time "Stop Loss"
          else if take_profit pos [<=] current_price
          then close_position st symbol current_price current_time "Take Profit"
          else Some st
      | SELL =>
          if stop_loss pos [<=] current_price
          then close_position st symbol current_price current_time "Stop Loss"
          else if current_price [<=] take_profit pos
          then close_position st symbol current_price current_time "Take Profit"
          else Some st
      end
  | None =>
      if List.length (positions st) <? MAX_POSITIONS config then
        if 2 <=? fst signals
        then open_position st symbol BUY current_price current_time by_tf
        else if 2 <=? snd signals
        then open_position st symbol SELL current_price current_time by_tf
        else Some st
      else Some st
  end.

(** [balance + sum(size * price for open positions)]. *)
Definition equity (st : State R) (current_price : R) : R :=
  balance st [+]
  fold_left add
    (map (fun pos => position_size pos [*] current_price)
         (dict_values (positions st)))
    (of_nat 0).

(** One iteration of the bar loop. *)
Definition bar_step (historical_data : dict (DataFrame R))
    (timeframes : dict (list string)) (symbol : string) (i : nat)
    (acc : State R * list (Snapshot R)) : option (State R * list (Snapshot R)) :=
  tf0 <- hd_error (TIMEFRAMES config) ;;
  primary <- dict_get (data_key symbol tf0) historical_data ;;
  bar <- iloc primary i ;;
  let current_time := timestamp bar in
  tfs <- dict_get symbol timeframes ;;
  by_tf <- for_each tfs (analyze_timeframe historical_data symbol current_time) [] ;;
  let signals := count_signals by_tf in
  let current_price := Close bar in
  st <- manage_positions (fst acc) symbol current_price current_time signals by_tf ;;
  Some (st, snd acc ++ [{| snap_timestamp := current_time;
                           snap_balance := equity st current_price |}]).

Definition symbol_step (historical_data : dict (DataFrame R))
    (timeframes : dict (list string)) (symbol : string)
    (acc : State R * list (Snapshot R)) : option (State R * list (Snapshot R)) :=
  tf0 <- hd_error (TIMEFRAMES config) ;;
  primary <- dict_get (data_key symbol tf0) historical_data ;;
  for_each (range 0 (List.length primary))
           (bar_step historical_data timeframes symbol) acc.

(** The last close of each configured symbol. *)
Definition final_price_step (historical_data : dict (DataFrame R))
    (symbol : string) (prices : dict R) : option (dict R) :=
  tf0 <- hd_error (TIMEFRAMES config) ;;
  primary <- dict_get (data_key symbol tf0) historical_data ;;
  bar <- last_error primary ;;
  Some (dict_set symbol (Close bar) prices).

Definition final_close_step (historical_data : dict (DataFrame R))
    (final_prices : dict R) (symbol : string) (st : State R) : option (State R) :=
  price <- dict_get symbol final_prices ;;
  tf0 <- hd_error (TIMEFRAMES config) ;;
  primary <- dict_get (data_key symbol tf0) historical_data ;;
  bar <- last_error primary ;;
  close_position st symbol price (timestamp bar) "End of Backtest".

(** The state and the equity history at the end of [run_backtest]. *)
Definition simulate (historical_data : dict (DataFrame R))
  : option (State R * list (Snapshot R)) :=
  timeframes <- for_each historical_data timeframes_step [] ;;
  acc <- for_each (SYMBOLS config) (symbol_step historical_data timeframes)
           (init_state, []) ;;
  final_prices <- for_each (SYMBOLS config) (final_price_step historical_data) [] ;;
  st <- for_each (dict_keys (positions (fst acc)))
          (final_close_step historical_data final_prices) (fst acc) ;;
  Some (st, snd acc).

(** [max(a, b)] of Python: [b] only when [b > a]. *)
Definition pymax (a b : R) : R := if a [<] b then b else a.

Definition sum (l : list R) : R := fold_left add l (of_nat 0).

(** The realised balance after each trade. *)
Fixpoint balance_curve (current_balance : R) (l : list (Trade R)) : list R :=
  match l with
  | [] => []
  | t :: l' => (current_balance [+] pnl t) :: balance_curve (current_balance [+] pnl t) l'
  end.

Definition drawdown_step (bal : R) (acc : R * R) : option (R * R) :=
  let max_dd := fst acc in
  let peak := if snd acc [<] bal then bal else snd acc in
  dd <- div (peak [-] bal) peak ;;
  Some (pymax max_dd dd, peak).

Definition calculate_metrics (st : State R) : option (Metrics R) :=
  match trades_history st with
  | [] =>
      Some {| total_trades := 0; profitable_trades := 0; win_rate := of_nat 0;
              total_pnl := of_nat 0; total_return := of_nat 0;
              average_pnl := of_nat 0; max_drawdown := of_nat 0;
              final_balance := balance st; profit_factor := Fin (of_nat 0) |}
  | _ :: _ =>
      let n := List.length (trades_history st) in
      let wins :=
        List.length (filter (fun t => of_nat 0 [<] pnl t) (trades_history st)) in
      rate <- (if 0 <? n then div (of_nat wins) (of_nat n) else Some (of_nat 0)) ;;
      let pnl_list := map pnl (trades_history st) in
      let total := sum pnl_list in
      avg <- match pnl_list with
             | [] => Some (of_nat 0)
             | _ :: _ => div total (of_nat (List.length pnl_list))
             end ;;
      dd <- for_each (balance_curve initial_balance (trades_history st))
              drawdown_step (of_nat 0, initial_balance) ;;
      let winning_trades :=
        map pnl (filter (fun t => of_nat 0 [<] pnl t) (trades_history st)) in
      let losing_trades :=
        map (fun t => abs (pnl t))
            (filter (fun t => pnl t [<] of_nat 0) (trades_history st)) in
      pf <- (if of_nat 0 [<] sum losing_trades
             then q <- div (sum winning_trades) (sum losing_trades) ;; Some (Fin q)
             else Some Inf) ;;
      ret <- div total initial_balance ;;
      Some {| total_trades := n; profitable_trades := wins; win_rate := rate;
              total_pnl := total; total_return := ret [*] of_nat 100;
              average_pnl := avg; max_drawdown := fst dd [*] of_nat 100;
              final_balance := balance st; profit_factor := pf |}
  end.

Definition run_backtest (historical_data : dict (DataFrame R))
  : option (Results R) :=
  acc <- simulate historical_data ;;
  m <- calculate_metrics (fst acc) ;;
  Some {| trades := trades_history (fst acc); balance_history := snd acc;
          metrics := m |}.

End Backtester.

(** ** The detectors as the specification words them *)

Section PatternSpec.
Context {R : Type} `{Arith R}.
Variable config : TradingConfig R.

(** [x / y] strictly exceeds [thr]. *)
Definition ratio_exceeds (x y thr : R) : bool :=
  match div x y with
  | Some r => thr [<] r
  | None => false
  end.

(** Candle [c] closes above its open, the next candle [n] closes below its
    open, and the relative range of [n] exceeds the threshold. *)
Definition bullish_order_block (c n : Candle R) : bool :=
  (Open c [<] Close c) && (Close n [<] Open n)
  && ratio_exceeds (High n [-] Low n) (Low n) (LIQUIDITY_THRESHOLD config).

Definition bearish_order_block (c n : Candle R) : bool :=
  (Close c [<] Open c) && (Open n [<] Close n)
  && ratio_exceeds (High n [-] Low n) (Low n) (LIQUIDITY_THRESHOLD config).

(** The order blocks of the pair [(i, i+1)]. *)
Definition spec_order_blocks_at (df : DataFrame R) (i : nat) : list (Zone R) :=
  match nth_error df i, nth_error df (i + 1) with
  | Some c, Some n =>
      (if bullish_order_block c n then [zone_of bullish c] else [])
      ++ (if bearish_order_block c n then [zone_of bearish c] else [])
  | _, _ => []
  end.

(** The low of [n] lies above the high of [p] by more than the threshold. *)
Definition bullish_gap (p n : Candle R) : bool :=
  (High p [<] Low n)
  && ratio_exceeds (Low n [-] High p) (High p) (IMBALANCE_THRESHOLD config).

Definition bearish_gap (p n : Candle R) : bool :=
  (High n [<] Low p)
  && ratio_exceeds (Low p [-] High n) (High n) (IMBALANCE_THRESHOLD config).

Definition gap_zone (t : PatternType) (hi lo : R) (c : Candle R) : Zone R :=
  {| zone_type := t; top := hi; bottom := lo; zone_timestamp := timestamp c |}.

(** The fair value gaps around the middle candle [i]. *)
Definition spec_fvg_at (df : DataFrame R) (i : nat) : list (Zone R) :=
  match nth_error df (i - 1), nth_error df i, nth_error df (i + 1) with
  | Some p, Some c, Some n =>
      (if bullish_gap p n then [gap_zone bullish (Low n) (High p) c] else [])
      ++ (if bearish_gap p n then [gap_zone bearish (Low p) (High n) c] else [])
  | _, _, _ => []
  end.

(** The high of [c], at index [i], is above the high of each of the [window]
    candles on either side. *)
Definition higher_than_neighbours (df : DataFrame R) (i : nat) (c : Candle R)
  : Prop :=
  forall j cj, i - window <= j <= i + window -> j <> i ->
    nth_error df j = Some cj -> High cj [<] High c = true.

Definition lower_than_neighbours (df : DataFrame R) (i : nat) (c : Candle R)
  : Prop :=
  forall j cj, i - window <= j <= i + window -> j <> i ->
    nth_error df j = Some cj -> Low c [<] Low cj = true.

Definition resistance_level (c : Candle R) : Level R :=
  {| level_type := resistance; price := High c; level_timestamp := timestamp c |}.

Definition support_level (c : Candle R) : Level R :=
  {| level_type := support; price := Low c; level_timestamp := timestamp c |}.

(** The levels of index [i], by the slice tests of the detector. *)
Definition spec_levels_at (df : DataFrame R) (i : nat) : list (Level R) :=
  match nth_error df i with
  | Some c =>
      (if swing_high df i c then [resistance_level c] else [])
      ++ (if swing_low df i c then [support_level c] else [])
  | None => []
  end.

Definition is_resistance (l : Level R) : bool :=
  match level_type l with resistance => true | support => false end.

(** One vote when the latest zone of a list has type [t]. *)
Definition latest_vote (t : PatternType) (zs : list (Zone R)) : nat :=
  match last_error zs, t with
  | Some {| zone_type := bullish |}, bullish => 1
  | Some {| zone_type := bearish |}, bearish => 1
  | _, _ => 0
  end.

Definition buy_votes (p : Patterns R) : nat :=
  latest_vote bullish (order_blocks p) + latest_vote bullish (fair_value_gaps p).

Definition sell_votes (p : Patterns R) : nat :=
  latest_vote bearish (order_blocks p) + latest_vote bearish (fair_value_gaps p).

End PatternSpec.

(** ** The states of a run *)

Section Runs.
Context {R : Type} `{Arith R}.
Variable config : TradingConfig R.
Variable initial_balance : R.

(** The states a backtester goes through: the reset state, then any sequence
    of [open_position] and [close_position] calls. *)
Inductive reachable : State R -> Prop :=
| reach_init : reachable (init_state initial_balance)
| reach_open : forall st st' symbol sd price time info,
    reachable st ->
    open_position config st symbol sd price time info = Some st' ->
    reachable st'
| reach_close : forall st st' symbol price time why,
    reachable st ->
    close_position st symbol price time why = Some st' ->
    reachable st'.

(** The exit levels of a position, from its entry price and side. *)
Definition stop_level (sd : Side) (entry : R) : R :=
  match sd with
  | BUY => entry [*] (of_nat 1 [-] STOP_LOSS_PERCENT config)
  | SELL => entry [*] (of_nat 1 [+] STOP_LOSS_PERCENT config)
  end.

Definition target_level (sd : Side) (entry : R) : R :=
  match sd with
  | BUY => entry [*] (of_nat 1 [+] TAKE_PROFIT_PERCENT config)
  | SELL => entry [*] (of_nat 1 [-] TAKE_PROFIT_PERCENT config)
  end.

(** The trade record written when [pos] is closed at [exit_price]. *)
Definition closed_trade (symbol : string) (pos : Position R) (exit_price : R)
    (time : Z) (why : string) (pct : R) : Trade R :=
  {| trade_symbol := symbol; trade_side := side pos;
     trade_entry_price := entry_price pos;
     trade_exit_price := exit_price;
     trade_position_size := position_size pos;
     pnl := position_pnl pos exit_price;
     pnl_percent := pct [*] of_nat 100;
     entry_time := pos_timestamp pos; exit_time := time;
     reason := why; trade_pattern := pattern pos |}.

Definition levels_fixed (pos : Position R) : Prop :=
  stop_loss pos = stop_level (side pos) (entry_price pos)
  /\ take_profit pos = target_level (side pos) (entry_price pos).

End Runs.

(** ** Concrete data *)

Definition candle (t : Z) (o h l c : Q) : Candle Q :=
  {| timestamp := t; Open := o; High := h; Low := l; Close := c |}.

(** The default parameters, trading one symbol. *)
Definition btc_config : TradingConfig Q := {|
  TIMEFRAMES := ["1h"; "4h"; "1d"];
  SYMBOLS := ["BTCUSDT"];
  LIQUIDITY_THRESHOLD := 2 # 100;
  ORDER_BLOCK_LOOKBACK := 20;
  IMBALANCE_THRESHOLD := 15 # 1000;
  POSITION_SIZE := 1 # 100;
  MAX_POSITIONS := 3;
  STOP_LOSS_PERCENT := 2 # 100;
  TAKE_PROFIT_PERCENT := 4 # 100
|}.

(** A sell-off (bars 0-2) followed by a price spike (bar 3) and a pull-back
    (bar 4). *)
Definition spike_bars : DataFrame Q :=
  [ candle 0 100 102 99 101;
    candle 1 101 101 90 91;
    candle 2 91 95 90 94;
    candle 3 94 18800 94 18800;
    candle 4 18800 18800 18000 18100 ].

Definition spike_data : dict (DataFrame Q) := [("BTCUSDT_1h", spike_bars)].

Definition spike_timeframes : dict (list string) := [("BTCUSDT", ["1h"])].

(** The bar loop of the run on [spike_data], stopped after [n] bars. *)
Definition spike_run (n : nat) : option (State Q * list (Snapshot Q)) :=
  for_each (range 0 n)
    (bar_step (H0 := nearest_lookup) btc_config spike_data spike_timeframes "BTCUSDT")
    (init_state 10000%Q, []).

(** The patterns seen at bar [i] of [spike_data]. *)
Definition spike_patterns (i : nat) : option (dict (Patterns Q)) :=
  for_each ["1h"]
    (analyze_timeframe (H0 := nearest_lookup) btc_config spike_data "BTCUSDT"
       (Z.of_nat i)) [].

(** The ledger after [n] bars of that run. *)
Definition spike_state (n : nat) : State Q :=
  match spike_run n with
  | Some (st, _) => st
  | None => init_state 10000%Q
  end.


Definition buy_patterns : dict (Patterns Q) :=
  match spike_patterns 4 with Some d => d | None => [] end.

(** Eleven candles with a single peak of the highs at index 5. *)
Definition peak_bars : DataFrame Q :=
  [ candle 0 10 11 9 10; candle 1 10 12 9 11; candle 2 11 13 10 12;
    candle 3 12 14 11 13; candle 4 13 15 12 14; candle 5 14 20 13 15;
    candle 6 15 16 12 13; candle 7 13 15 11 12; candle 8 12 14 10 11;
    candle 9 11 13 9 10; candle 10 10 12 8 9 ].

(** A short position on BTCUSDT opened at 94 from a balance of 10000. *)
Definition short_state : State Q :=
  match open_position btc_config (init_state 10000%Q) "BTCUSDT" SELL 94%Q 2%Z []
  with
  | Some st => st
  | None => init_state 10000%Q
  end.

(** ** trading_bot.py: the entry decision of the live bot *)

Section LiveBot.
Context {R V : Type}.
Variable config : TradingConfig R.

(** [TradingBot.execute_trades]: the side of the order handed to
    [place_order], or [None] when the method places no order.  The exchange
    calls of [place_order] and the logging are outside the model. *)
Definition execute_trades (open_positions : dict V) (patterns : Patterns R)
    (symbol : string) : option Side :=
  if MAX_POSITIONS config <=? List.length open_positions then None
  else if dict_mem symbol open_positions then None
  else
    let buy1 :=
      match last_error (order_blocks patterns) with
      | Some latest_ob =>
          match zone_type latest_ob with bullish => 0 + 1 | bearish => 0 end
      | None => 0
      end in
    let buy_signals :=
      match last_error (fair_value_gaps patterns) with
      | Some latest_fvg =>
          match zone_type latest_fvg with
          | bullish => buy1 + 1
          | bearish => buy1
          end
      | None => buy1
      end in
    let sell1 :=
      match last_error (order_blocks patterns) with
      | Some latest_ob =>
          match zone_type latest_ob with bearish => 0 + 1 | bullish => 0 end
      | None => 0
      end in
    let sell_signals :=
      match last_error (fair_value_gaps patterns) with
      | Some latest_fvg =>
          match zone_type latest_fvg with
          | bearish => sell1 + 1
          | bullish => sell1
          end
      | None => sell1
      end in
    if 2 <=? buy_signals then Some BUY
    else if 2 <=? sell_signals then Some SELL
    else None.

End LiveBot.

(** ** Quantities used to state the properties of a run *)

(** [s] does not contain the character [sep]. *)
Fixpoint no_char (sep : ascii) (s : string) : bool :=
  match s with
  | EmptyString => true
  | String c s' => negb (Ascii.eqb c sep) && no_char sep s'
  end.

(** The number of bars of the primary timeframe of [symbol]. *)
Definition primary_length {R} (config : TradingConfig R)
    (historical_data : dict (DataFrame R)) (symbol : string) : nat :=
  match hd_error (TIMEFRAMES config) with
  | Some tf0 =>
      match dict_get (data_key symbol tf0) historical_data with
      | Some primary => List.length primary
      | None => 0
      end
  | None => 0
  end.

(** The cash reserved by the open positions. *)
Fixpoint total_cost (d : dict (Position Q)) : Q :=
  match d with
  | [] => 0%Q
  | (_, pos) :: d' => (cost pos + total_cost d')%Q
  end.

(** The books balance: no symbol is listed twice, and the cash plus the
    reserved costs is the initial balance plus the realised pnl. *)
Definition ledger_balanced (initial_balance : Q) (st : State Q) : Prop :=
  NoDup (dict_keys (positions st))
  /\ (balance st + total_cost (positions st)
      == initial_balance + sum (map pnl (trades_history st)))%Q.

(** [short_state] after its position is closed at 90, below the target. *)
Definition profit_state : State Q :=
  match close_position short_state "BTCUSDT" 90%Q 3%Z "Take Profit" with
  | Some st => st
  | None => short_state
  end.

(** The default parameters in binary64. *)
Definition float_config : TradingConfig float := {|
  TIMEFRAMES := ["1h"; "4h"; "1d"];
  SYMBOLS := ["BTCUSDT"; "ETHUSDT"; "XRPUSDT"];
  LIQUIDITY_THRESHOLD := (2 / 100)%float;
  ORDER_BLOCK_LOOKBACK := 20;
  IMBALANCE_THRESHOLD := (15 / 1000)%float;
  POSITION_SIZE := (1 / 100)%float;
  MAX_POSITIONS := 3;
  STOP_LOSS_PERCENT := (2 / 100)%float;
  TAKE_PROFIT_PERCENT := (4 / 100)%float
|}.

Definition float_candle (t : Z) (o h l c : float) : Candle float :=
  {| timestamp := t; Open := o; High := h; Low := l; Close := c |}.

(** A rising candle followed by a falling candle whose Low is zero. *)
Definition zero_low_window : DataFrame float :=
  [ float_candle 0 1 2 1 2; float_candle 1 2 2 0 1 ].

(** A long position opened at a Close of zero, its close at a positive
    price, and the next open, in binary64. *)
Definition zero_entry_state : State float :=
  match open_position float_config (init_state 10000%float) "BTCUSDT" BUY
          0%float 0%Z [] with
  | Some st => st
  | None => init_state 10000%float
  end.

Definition infinite_cash_state : State float :=
  match close_position zero_entry_state "BTCUSDT" 1%float 1%Z "Take Profit" with
  | Some st => st
  | None => zero_entry_state
  end.

Definition reopened_state : State float :=
  match open_position float_config infinite_cash_state "BTCUSDT" BUY
          1%float 2%Z [] with
  | Some st => st
  | None => infinite_cash_state
  end.

(** The position held in [short_state]. *)
Definition short_position : Position Q :=
  {| side := SELL; entry_price := 94%Q;
     stop_loss := (94 * (1 + (2 # 100)))%Q;
     take_profit := (94 * (1 - (4 # 100)))%Q;
     position_size := ((10000 * (1 # 100)) / 94)%Q;
     cost := (10000 * (1 # 100))%Q;
     pattern := []; pos_timestamp := 2%Z |}.

(** * Properties *)

(** ** Loops and containers *)

Lemma bind_some {A B} (m : option A) (k : A -> option B) (b : B) :
  bind m k = Some b -> exists a, m = Some a /\ k a = Some b.
Proof.
  destruct m as [a|]; simpl; intros E; [eauto | discriminate].
Qed.

(** Case analysis on every test left in the goal. *)
Ltac case_if :=
  repeat (match goal with
          | |- context [if ?b then _ else _] => destruct b eqn:?
          end; simpl).

(** A loop whose body appends what [emit] gives for the current element. *)
Lemma for_each_emit {A B} (emit : A -> list B)
    (body : A -> list B -> option (list B)) (xs : list A) :
  (forall x acc, In x xs -> body x acc = Some (acc ++ emit x)) ->
  forall acc, for_each xs body acc = Some (acc ++ flat_map emit xs).
Proof.
  induction xs as [|x xs IH]; intros Hbody acc; simpl.
  - now rewrite app_nil_r.
  - rewrite Hbody by now left. simpl.
    rewrite IH by (intros; apply Hbody; now right).
    now rewrite app_assoc.
Qed.

(** A property kept by every iteration holds when the loop ends. *)
Lemma for_each_invariant {A S} (P : S -> Prop) (body : A -> S -> option S)
    (xs : list A) :
  (forall x s s', P s -> body x s = Some s' -> P s') ->
  forall s s', P s -> for_each xs body s = Some s' -> P s'.
Proof.
  intros Hbody. induction xs as [|x xs IH]; simpl; intros s s' Hs E.
  - now inversion E; subst.
  - apply bind_some in E. destruct E as (s1 & E1 & E2). eauto.
Qed.

Lemma in_range (a b i : nat) : In i (range a b) <-> a <= i < b.
Proof. unfold range. rewrite in_seq. lia. Qed.

Lemma in_slice {A} (a b : nat) (l : list A) (x : A) :
  In x (slice a b l) <-> exists j, a <= j < b /\ nth_error l j = Some x.
Proof.
  unfold slice. split.
  - intros Hin. apply In_nth_error in Hin. destruct Hin as [n Hn].
    rewrite nth_error_firstn in Hn.
    destruct (n <? b - a) eqn:E; [|discriminate].
    apply Nat.ltb_lt in E. rewrite nth_error_skipn in Hn.
    exists (a + n). split; [lia | exact Hn].
  - intros (j & Hj & Hn). apply (nth_error_In _ (j - a)).
    rewrite nth_error_firstn.
    replace (j - a <? b - a) with true by (symmetry; apply Nat.ltb_lt; lia).
    rewrite nth_error_skipn. now replace (a + (j - a)) with j by lia.
Qed.

Lemma nth_error_lt {A} (l : list A) (i : nat) :
  i < List.length l -> exists x, nth_error l i = Some x.
Proof.
  intros Hi. destruct (nth_error l i) eqn:E; [eauto|].
  apply nth_error_None in E. lia.
Qed.

Lemma dict_get_set_same {V} (k : string) (v : V) (d : dict V) :
  dict_get k (dict_set k v d) = Some v.
Proof.
  induction d as [|[k' v'] d IH]; simpl.
  - now rewrite String.eqb_refl.
  - destruct (String.eqb k k') eqn:E; simpl; rewrite E; auto.
Qed.

Lemma dict_get_set_other {V} (k k' : string) (v : V) (d : dict V) :
  k <> k' -> dict_get k' (dict_set k v d) = dict_get k' d.
Proof.
  intros Hne. induction d as [|[k1 v1] d IH]; simpl.
  - apply String.eqb_neq in Hne. rewrite String.eqb_sym. now rewrite Hne.
  - destruct (String.eqb k k1) eqn:E; simpl.
    + apply String.eqb_eq in E. subst k1.
      assert (E' : String.eqb k' k = false)
        by (apply String.eqb_neq; congruence).
      now rewrite E'.
    + now rewrite IH.
Qed.

Lemma dict_get_del_same {V} (k : string) (d : dict V) :
  dict_get k (dict_del k d) = None.
Proof.
  induction d as [|[k' v'] d IH]; simpl; auto.
  destruct (String.eqb k k') eqn:E; simpl; [|rewrite E]; auto.
Qed.

Lemma dict_get_del_other {V} (k k' : string) (d : dict V) :
  k <> k' -> dict_get k' (dict_del k d) = dict_get k' d.
Proof.
  intros Hne. induction d as [|[k1 v1] d IH]; simpl; auto.
  destruct (String.eqb k k1) eqn:E; simpl.
  - apply String.eqb_eq in E. subst k1.
    assert (E' : String.eqb k' k = false) by (apply String.eqb_neq; congruence).
    now rewrite E'.
  - now rewrite IH.
Qed.

Lemma dict_set_length {V} (k : string) (v : V) (d : dict V) :
  List.length (dict_set k v d) <= S (List.length d).
Proof.
  induction d as [|[k' v'] d IH]; simpl; [lia|].
  destruct (String.eqb k k'); simpl; lia.
Qed.

Lemma dict_del_length {V} (k : string) (d : dict V) :
  List.length (dict_del k d) <= List.length d.
Proof.
  induction d as [|[k' v'] d IH]; simpl; [lia|].
  destruct (String.eqb k k'); simpl; lia.
Qed.

Lemma dict_set_keys_in {V} (k k' : string) (v : V) (d : dict V) :
  In k' (dict_keys (dict_set k v d)) -> k' = k \/ In k' (dict_keys d).
Proof.
  induction d as [|[k1 v1] d IH]; simpl.
  - intros [E|[]]; auto.
  - destruct (String.eqb k k1); simpl; intuition.
Qed.

Lemma dict_set_keys_nodup {V} (k : string) (v : V) (d : dict V) :
  NoDup (dict_keys d) -> NoDup (dict_keys (dict_set k v d)).
Proof.
  induction d as [|[k1 v1] d IH]; simpl; intros Hnd.
  - constructor; [intros [] | constructor].
  - inversion Hnd as [|? ? Hnotin Hnd']; subst.
    destruct (String.eqb k k1) eqn:E; simpl.
    + now constructor.
    + constructor; [|now apply IH].
      intros Hin. apply dict_set_keys_in in Hin. destruct Hin as [->|Hin].
      * rewrite String.eqb_refl in E. discriminate.
      * now apply Hnotin.
Qed.

Lemma dict_del_keys_in {V} (k k' : string) (d : dict V) :
  In k' (dict_keys (dict_del k d)) -> In k' (dict_keys d).
Proof.
  induction d as [|[k1 v1] d IH]; simpl; auto.
  destruct (String.eqb k k1); simpl; intuition.
Qed.

Lemma dict_del_keys_nodup {V} (k : string) (d : dict V) :
  NoDup (dict_keys d) -> NoDup (dict_keys (dict_del k d)).
Proof.
  induction d as [|[k1 v1] d IH]; simpl; intros Hnd; auto.
  inversion Hnd as [|? ? Hnotin Hnd']; subst.
  destruct (String.eqb k k1); simpl; auto.
  constructor; auto. intros Hin. apply dict_del_keys_in in Hin. auto.
Qed.

(** ** Rational arithmetic satisfies the laws *)

#[export] Instance Q_ArithLaws : ArithLaws Q.
Proof.
  split; simpl.
  - intros x y Hy. destruct (Qeq_bool y 0) eqn:E; [|discriminate].
    apply Qeq_bool_iff in E. apply negb_true_iff in Hy.
    assert (Hle : (y <= 0)%Q) by (rewrite E; apply Qle_refl).
    apply Qle_bool_iff in Hle. unfold inject_Z in Hy. simpl in Hy.
    congruence.
  - intros x. apply negb_false_iff. apply Qle_bool_iff. apply Qle_refl.
Qed.

(** ** Exact arithmetic *)

Ltac q_ops := cbn [add sub mul of_nat Q_Arith] in *.

Lemma Q_ltb_true (x y : Q) : x [<] y = true <-> (x < y)%Q.
Proof.
  simpl. rewrite negb_true_iff. split.
  - intros E. apply Qnot_le_lt. intros Hle.
    apply Qle_bool_iff in Hle. congruence.
  - intros Hlt. destruct (Qle_bool y x) eqn:E; [|reflexivity].
    apply Qle_bool_iff in E. exfalso. exact (Qlt_not_le _ _ Hlt E).
Qed.

Lemma Q_ltb_false (x y : Q) : x [<] y = false <-> (y <= x)%Q.
Proof.
  simpl. rewrite negb_false_iff. apply Qle_bool_iff.
Qed.

Lemma Q_leb_true (x y : Q) : x [<=] y = true <-> (x <= y)%Q.
Proof. simpl. apply Qle_bool_iff. Qed.

Lemma Q_div_some (x y q : Q) :
  div x y = Some q -> ~ (y == 0)%Q /\ q = (x / y)%Q.
Proof.
  simpl. destruct (Qeq_bool y 0) eqn:E; [discriminate|].
  intros Eq. inversion Eq. split; [|reflexivity].
  now apply Qeq_bool_neq.
Qed.

Lemma Q_div_pos (x y : Q) : (0 < y)%Q -> div x y = Some (x / y)%Q.
Proof.
  intros Hy. simpl. destruct (Qeq_bool y 0) eqn:E; [|reflexivity].
  apply Qeq_bool_iff in E. rewrite E in Hy. exfalso.
  exact (Qlt_irrefl _ Hy).
Qed.

(** ** The pattern detectors *)

Section PatternProperties.
Context {R : Type} `{Arith R}.
Variable config : TradingConfig R.

Lemma swing_high_iff (df : DataFrame R) (i : nat) (c : Candle R) :
  swing_high df i c = true <-> higher_than_neighbours df i c.
Proof.
  unfold swing_high, all_high_below, higher_than_neighbours.
  rewrite andb_true_iff, !forallb_forall. split.
  - intros [Hl Hr] j cj Hj Hne Hn.
    destruct (Nat.lt_ge_cases j i).
    + apply Hl. apply in_slice. exists j. split; [lia | exact Hn].
    + apply Hr. apply in_slice. exists j. split; [lia | exact Hn].
  - intros Hall. split; intros x Hx; apply in_slice in Hx;
      destruct Hx as (j & Hj & Hn); apply (Hall j); auto; lia.
Qed.

Lemma swing_low_iff (df : DataFrame R) (i : nat) (c : Candle R) :
  swing_low df i c = true <-> lower_than_neighbours df i c.
Proof.
  unfold swing_low, all_low_above, lower_than_neighbours.
  rewrite andb_true_iff, !forallb_forall. split.
  - intros [Hl Hr] j cj Hj Hne Hn.
    destruct (Nat.lt_ge_cases j i).
    + apply Hl. apply in_slice. exists j. split; [lia | exact Hn].
    + apply Hr. apply in_slice. exists j. split; [lia | exact Hn].
  - intros Hall. split; intros x Hx; apply in_slice in Hx;
      destruct Hx as (j & Hj & Hn); apply (Hall j); auto; lia.
Qed.

Lemma liquidity_step_spec (df : DataFrame R) (i : nat) (levels : list (Level R)) :
  i < List.length df ->
  liquidity_step df i levels = Some (levels ++ spec_levels_at df i).
Proof.
  intros Hi. destruct (nth_error_lt df i Hi) as [c Hc].
  unfold liquidity_step, spec_levels_at, iloc. rewrite Hc. simpl.
  unfold resistance_level, support_level.
  destruct (swing_high df i c), (swing_low df i c); simpl;
    rewrite ?app_nil_r, <- ?app_assoc; reflexivity.
Qed.

(** The liquidity detector never raises. *)
Lemma identify_liquidity_levels_spec (df : DataFrame R) :
  identify_liquidity_levels df
  = Some (flat_map (spec_levels_at df) (range window (List.length df - window))).
Proof.
  unfold identify_liquidity_levels.
  rewrite (for_each_emit (spec_levels_at df)); [reflexivity|].
  intros i acc Hi. apply in_range in Hi. apply liquidity_step_spec. lia.
Qed.

Lemma order_block_step_spec (df : DataFrame R) (i : nat) (obs : list (Zone R)) :
  (forall c x, In c df -> div x (Low c) <> None) ->
  i + 1 < List.length df ->
  order_block_step config df i obs
  = Some (obs ++ spec_order_blocks_at config df i).
Proof.
  intros Hdiv Hi.
  destruct (nth_error_lt df i ltac:(lia)) as [c Hc].
  destruct (nth_error_lt df (i + 1) Hi) as [n Hn].
  unfold order_block_step, spec_order_blocks_at, iloc. rewrite Hc, Hn. simpl.
  unfold bullish_order_block, bearish_order_block, ratio_exceeds, range_exceeds,
    and_then.
  destruct (div (High n [-] Low n) (Low n)) as [r|] eqn:Er.
  - destruct (Open c [<] Close c), (Close n [<] Open n), (Close c [<] Open c),
      (Open n [<] Close n); simpl; case_if;
      rewrite ?app_nil_r, <- ?app_assoc; reflexivity.
  - exfalso. apply (Hdiv n (High n [-] Low n)); [|exact Er].
    eapply nth_error_In; eauto.
Qed.

Lemma identify_order_blocks_spec (df : DataFrame R) :
  (forall c x, In c df -> div x (Low c) <> None) ->
  identify_order_blocks config df
  = Some (flat_map (spec_order_blocks_at config df)
            (range 0 (List.length df - 1))).
Proof.
  intros Hdiv. unfold identify_order_blocks.
  rewrite (for_each_emit (spec_order_blocks_at config df)); [reflexivity|].
  intros i acc Hi. apply in_range in Hi. apply order_block_step_spec; auto. lia.
Qed.

Lemma fvg_step_spec (df : DataFrame R) (i : nat) (gaps : list (Zone R)) :
  (forall c x, In c df -> div x (High c) <> None) ->
  1 <= i -> i + 1 < List.length df ->
  fvg_step config df i gaps = Some (gaps ++ spec_fvg_at config df i).
Proof.
  intros Hdiv H1 Hi.
  destruct (nth_error_lt df (i - 1) ltac:(lia)) as [p Hp].
  destruct (nth_error_lt df i ltac:(lia)) as [c Hc].
  destruct (nth_error_lt df (i + 1) Hi) as [n Hn].
  unfold fvg_step, spec_fvg_at, iloc. rewrite Hp, Hc, Hn. simpl.
  unfold bullish_gap, bearish_gap, ratio_exceeds, gap_zone.
  assert (Dp : div (Low n [-] High p) (High p) <> None)
    by (apply Hdiv; eapply nth_error_In; eauto).
  assert (Dn : div (Low p [-] High n) (High n) <> None)
    by (apply Hdiv; eapply nth_error_In; eauto).
  destruct (div (Low n [-] High p) (High p)) as [r1|]; [|congruence].
  destruct (div (Low p [-] High n) (High n)) as [r2|]; [|congruence].
  destruct (High p [<] Low n), (High n [<] Low p); simpl; case_if;
    rewrite ?app_nil_r, <- ?app_assoc; reflexivity.
Qed.

Lemma identify_fair_value_gaps_spec (df : DataFrame R) :
  (forall c x, In c df -> div x (High c) <> None) ->
  identify_fair_value_gaps config df
  = Some (flat_map (spec_fvg_at config df) (range 1 (List.length df - 1))).
Proof.
  intros Hdiv. unfold identify_fair_value_gaps.
  rewrite (for_each_emit (spec_fvg_at config df)); [reflexivity|].
  intros i acc Hi. apply in_range in Hi. apply fvg_step_spec; auto; lia.
Qed.

End PatternProperties.

Section PatternClaims.
Context {R : Type} `{ArithLaws R}.
Variable config : TradingConfig R.

(** C6.  Order blocks.  On a series where no division by a Low raises, the
    detector returns, in index order, exactly the blocks of the consecutive
    pairs [(i, i+1)]: a bullish block with the high, low and timestamp of
    candle [i] when [close[i] > open[i]], [close[i+1] < open[i+1]] and
    [(high[i+1] - low[i+1]) / low[i+1] > LIQUIDITY_THRESHOLD]; a bearish block
    under the mirrored candle directions and the same range test.  A range
    ratio equal to the threshold makes the iteration append nothing. *)
Theorem order_blocks_spec (df : DataFrame R) :
  (forall c x, In c df -> div x (Low c) <> None) ->
  exists obs,
    identify_order_blocks config df = Some obs
    /\ obs = flat_map (spec_order_blocks_at config df)
               (range 0 (List.length df - 1))
    /\ (forall z, In z obs <->
          exists i c n,
            nth_error df i = Some c /\ nth_error df (i + 1) = Some n
            /\ ((z = {| zone_type := bullish; top := High c; bottom := Low c;
                        zone_timestamp := timestamp c |}
                 /\ Open c [<] Close c = true /\ Close n [<] Open n = true
                 /\ exists r, div (High n [-] Low n) (Low n) = Some r
                              /\ LIQUIDITY_THRESHOLD config [<] r = true)
                \/ (z = {| zone_type := bearish; top := High c; bottom := Low c;
                           zone_timestamp := timestamp c |}
                    /\ Close c [<] Open c = true /\ Open n [<] Close n = true
                    /\ exists r, div (High n [-] Low n) (Low n) = Some r
                                 /\ LIQUIDITY_THRESHOLD config [<] r = true)))
    /\ (forall i c n acc,
          nth_error df i = Some c -> nth_error df (i + 1) = Some n ->
          div (High n [-] Low n) (Low n) = Some (LIQUIDITY_THRESHOLD config) ->
          order_block_step config df i acc = Some acc).
Proof.
  intros Hdiv. eexists. split; [apply identify_order_blocks_spec, Hdiv|].
  split; [reflexivity|]. split.
  - intros z. rewrite in_flat_map. split.
    + intros (i & Hi & Hz). apply in_range in Hi.
      unfold spec_order_blocks_at in Hz.
      destruct (nth_error df i) as [c|] eqn:Hc; [|destruct Hz].
      destruct (nth_error df (i + 1)) as [n|] eqn:Hn; [|destruct Hz].
      exists i, c, n. split; [exact Hc|]. split; [exact Hn|].
      apply in_app_or in Hz. destruct Hz as [Hz|Hz].
      * left. destruct (bullish_order_block config c n) eqn:E; [|destruct Hz].
        destruct Hz as [<-|[]]. split; [reflexivity|].
        unfold bullish_order_block, ratio_exceeds in E.
        apply andb_true_iff in E. destruct E as [E E3].
        apply andb_true_iff in E. destruct E as [E1 E2].
        destruct (div (High n [-] Low n) (Low n)) as [r|]; [|discriminate].
        eauto.
      * right. destruct (bearish_order_block config c n) eqn:E; [|destruct Hz].
        destruct Hz as [<-|[]]. split; [reflexivity|].
        unfold bearish_order_block, ratio_exceeds in E.
        apply andb_true_iff in E. destruct E as [E E3].
        apply andb_true_iff in E. destruct E as [E1 E2].
        destruct (div (High n [-] Low n) (Low n)) as [r|]; [|discriminate].
        eauto.
    + intros (i & c & n & Hc & Hn & Hz). exists i. split.
      * apply in_range. assert (i + 1 < List.length df)
          by (apply nth_error_Some; congruence). lia.
      * unfold spec_order_blocks_at. rewrite Hc, Hn. apply in_or_app.
        destruct Hz as [(-> & E1 & E2 & r & Er & E3)|(-> & E1 & E2 & r & Er & E3)].
        -- left. unfold bullish_order_block, ratio_exceeds.
           rewrite E1, E2, Er, E3. now left.
        -- right. unfold bearish_order_block, ratio_exceeds.
           rewrite E1, E2, Er, E3. now left.
  - intros i c n acc Hc Hn Er.
    unfold order_block_step, iloc, range_exceeds, and_then.
    rewrite Hc, Hn. simpl. rewrite Er. simpl. rewrite ltb_irrefl.
    destruct (Open c [<] Close c), (Close n [<] Open n), (Close c [<] Open c),
      (Open n [<] Close n); reflexivity.
Qed.

(** C7.  Fair value gaps.  On a series where no division by a High raises,
    the detector returns, in index order, exactly the gaps of the middle
    indices [1 <= i <= len - 2]: a bullish gap with top [low[i+1]], bottom
    [high[i-1]] and the timestamp of candle [i] when [low[i+1] > high[i-1]]
    and [(low[i+1] - high[i-1]) / high[i-1] > IMBALANCE_THRESHOLD]; a bearish
    gap with top [low[i-1]], bottom [high[i+1]] when [high[i+1] < low[i-1]]
    and [(low[i-1] - high[i+1]) / high[i+1] > IMBALANCE_THRESHOLD]. *)
Theorem fair_value_gaps_spec (df : DataFrame R) :
  (forall c x, In c df -> div x (High c) <> None) ->
  exists gaps,
    identify_fair_value_gaps config df = Some gaps
    /\ gaps = flat_map (spec_fvg_at config df) (range 1 (List.length df - 1))
    /\ (forall z, In z gaps <->
          exists i p c n,
            1 <= i /\ nth_error df (i - 1) = Some p
            /\ nth_error df i = Some c /\ nth_error df (i + 1) = Some n
            /\ ((z = {| zone_type := bullish; top := Low n; bottom := High p;
                        zone_timestamp := timestamp c |}
                 /\ High p [<] Low n = true
                 /\ exists r, div (Low n [-] High p) (High p) = Some r
                              /\ IMBALANCE_THRESHOLD config [<] r = true)
                \/ (z = {| zone_type := bearish; top := Low p; bottom := High n;
                           zone_timestamp := timestamp c |}
                    /\ High n [<] Low p = true
                    /\ exists r, div (Low p [-] High n) (High n) = Some r
                                 /\ IMBALANCE_THRESHOLD config [<] r = true))).
Proof.
  intros Hdiv. eexists. split; [apply identify_fair_value_gaps_spec, Hdiv|].
  split; [reflexivity|].
  intros z. rewrite in_flat_map. split.
  - intros (i & Hi & Hz). apply in_range in Hi.
    unfold spec_fvg_at in Hz.
    destruct (nth_error df (i - 1)) as [p|] eqn:Hp; [|destruct Hz].
    destruct (nth_error df i) as [c|] eqn:Hc; [|destruct Hz].
    destruct (nth_error df (i + 1)) as [n|] eqn:Hn; [|destruct Hz].
    exists i, p, c, n. repeat (split; [assumption || lia|]).
    apply in_app_or in Hz. destruct Hz as [Hz|Hz].
    + left. destruct (bullish_gap config p n) eqn:E; [|destruct Hz].
      destruct Hz as [<-|[]]. split; [reflexivity|].
      unfold bullish_gap, ratio_exceeds in E.
      apply andb_true_iff in E. destruct E as [E1 E2].
      destruct (div (Low n [-] High p) (High p)) as [r|]; [|discriminate].
      eauto.
    + right. destruct (bearish_gap config p n) eqn:E; [|destruct Hz].
      destruct Hz as [<-|[]]. split; [reflexivity|].
      unfold bearish_gap, ratio_exceeds in E.
      apply andb_true_iff in E. destruct E as [E1 E2].
      destruct (div (Low p [-] High n) (High n)) as [r|]; [|discriminate].
      eauto.
  - intros (i & p & c & n & H1 & Hp & Hc & Hn & Hz). exists i. split.
    + apply in_range. assert (i + 1 < List.length df)
        by (apply nth_error_Some; congruence). lia.
    + unfold spec_fvg_at. rewrite Hp, Hc, Hn. apply in_or_app.
      destruct Hz as [(-> & E1 & r & Er & E2)|(-> & E1 & r & Er & E2)].
      * left. unfold bullish_gap, ratio_exceeds. rewrite E1, Er, E2. now left.
      * right. unfold bearish_gap, ratio_exceeds. rewrite E1, Er, E2. now left.
Qed.

(** C8.  Liquidity levels, [window = 5].  The detector never raises and
    evaluates exactly the indices [window <= i < len - window]: a resistance
    level at the high of candle [i] iff that high is strictly above the high
    of each of the [window] candles before and after [i], a support level at
    its low iff that low is strictly below their lows.  A series shorter than
    [2 * window + 1] gives no level, and eleven candles whose high at index 5
    is strictly above all other highs give exactly one resistance level, the
    one of index 5. *)
Theorem liquidity_levels_spec (df : DataFrame R) :
  exists levels,
    identify_liquidity_levels df = Some levels
    /\ (forall l, In l levels <->
          exists i c,
            window <= i < List.length df - window /\ nth_error df i = Some c
            /\ ((l = {| level_type := resistance; price := High c;
                        level_timestamp := timestamp c |}
                 /\ higher_than_neighbours df i c)
                \/ (l = {| level_type := support; price := Low c;
                           level_timestamp := timestamp c |}
                    /\ lower_than_neighbours df i c)))
    /\ (List.length df < 2 * window + 1 -> levels = [])
    /\ (List.length df = 11 ->
        forall c, nth_error df 5 = Some c -> higher_than_neighbours df 5 c ->
        filter is_resistance levels
        = [{| level_type := resistance; price := High c;
              level_timestamp := timestamp c |}]).
Proof.
  eexists. split; [apply identify_liquidity_levels_spec|]. split; [|split].
  - intros l. rewrite in_flat_map. split.
    + intros (i & Hi & Hl). apply in_range in Hi.
      unfold spec_levels_at in Hl.
      destruct (nth_error df i) as [c|] eqn:Hc; [|destruct Hl].
      exists i, c. split; [exact Hi|]. split; [exact Hc|].
      apply in_app_or in Hl. destruct Hl as [Hl|Hl].
      * left. destruct (swing_high df i c) eqn:E; [|destruct Hl].
        destruct Hl as [<-|[]]. split; [reflexivity|].
        now apply swing_high_iff.
      * right. destruct (swing_low df i c) eqn:E; [|destruct Hl].
        destruct Hl as [<-|[]]. split; [reflexivity|].
        now apply swing_low_iff.
    + intros (i & c & Hi & Hc & Hl). exists i. split; [now apply in_range|].
      unfold spec_levels_at. rewrite Hc. apply in_or_app.
      destruct Hl as [[-> Hh]|[-> Hh]].
      * left. apply swing_high_iff in Hh. rewrite Hh. now left.
      * right. apply swing_low_iff in Hh. rewrite Hh. now left.
  - intros Hlen. unfold range, window in *.
    replace (List.length df - 5 - 5) with 0 by lia. reflexivity.
  - intros Hlen c Hc Hh. rewrite Hlen. unfold range, window. simpl.
    unfold spec_levels_at. rewrite Hc. apply swing_high_iff in Hh. rewrite Hh.
    rewrite app_nil_r. simpl.
    destruct (swing_low df 5 c); reflexivity.
Qed.

(** C10 (amended).  The order block detector divides by [low[i+1]] and the
    gap detector by [high[i-1]] and [high[i+1]], unguarded.  On a window whose
    Low and High values are all strictly positive no divisor is zero and none
    of these divisions raises: [analyze_patterns] returns the three detector
    results.  Positivity is sufficient; with a division that does not raise
    it is not needed for [analyze_patterns] to return. *)
Theorem analyze_patterns_total (df : DataFrame R) :
  (forall c, In c df ->
     of_nat 0 [<] Low c = true /\ of_nat 0 [<] High c = true) ->
  exists levels,
    identify_liquidity_levels df = Some levels
    /\ analyze_patterns config df
       = Some {| liquidity_levels := levels;
                 order_blocks :=
                   flat_map (spec_order_blocks_at config df)
                     (range 0 (List.length df - 1));
                 fair_value_gaps :=
                   flat_map (spec_fvg_at config df)
                     (range 1 (List.length df - 1)) |}.
Proof.
  intros Hpos. eexists. split; [apply identify_liquidity_levels_spec|].
  unfold analyze_patterns.
  rewrite identify_liquidity_levels_spec. simpl.
  rewrite identify_order_blocks_spec
    by (intros c x Hc; apply div_pos; now apply Hpos).
  simpl.
  rewrite identify_fair_value_gaps_spec
    by (intros c x Hc; apply div_pos; now apply Hpos).
  reflexivity.
Qed.

End PatternClaims.

(** ** The position ledger *)

Section LedgerProperties.
Context {R : Type} `{Arith R}.
Variable config : TradingConfig R.
Variable initial_balance : R.

(** The state an effective [open_position] builds. *)
Lemma open_position_cases (st st' : State R) (symbol : string) (sd : Side)
    (price : R) (time : Z) (info : dict (Patterns R)) :
  open_position config st symbol sd price time info = Some st' ->
  st' = st
  \/ (List.length (positions st) < MAX_POSITIONS config
      /\ balance st [<] balance st [*] POSITION_SIZE config = false
      /\ exists qty,
           div (balance st [*] POSITION_SIZE config) price = Some qty
           /\ st' = {| balance := balance st [-] balance st [*] POSITION_SIZE config;
                       positions :=
                         dict_set symbol
                           {| side := sd; entry_price := price;
                              stop_loss := stop_level config sd price;
                              take_profit := target_level config sd price;
                              position_size := qty;
                              cost := balance st [*] POSITION_SIZE config;
                              pattern := info; pos_timestamp := time |}
                           (positions st);
                       trades_history := trades_history st |}).
Proof.
  unfold open_position, calculate_position_size.
  destruct (MAX_POSITIONS config <=? List.length (positions st)) eqn:Emax.
  - intros E. inversion E. now left.
  - destruct (balance st [<] balance st [*] POSITION_SIZE config) eqn:Ecost.
    + intros E. inversion E. now left.
    + intros E. apply bind_some in E. destruct E as (qty & Eq & E).
      right. apply Nat.leb_gt in Emax. split; [exact Emax|].
      split; [reflexivity|]. exists qty. split; [exact Eq|].
      inversion E. destruct sd; reflexivity.
Qed.

(** The state an effective [close_position] builds. *)
Lemma close_position_some (st : State R) (symbol : string) (pos : Position R)
    (p : R) (time : Z) (why : string) (pct : R) :
  dict_get symbol (positions st) = Some pos ->
  div (position_pnl pos p) (cost pos) = Some pct ->
  close_position st symbol p time why
  = Some {| balance := balance st [+] (cost pos [+] position_pnl pos p);
            positions := dict_del symbol (positions st);
            trades_history :=
              trades_history st ++ [closed_trade symbol pos p time why pct] |}.
Proof.
  intros Hget Hdiv. unfold close_position. rewrite Hget, Hdiv. reflexivity.
Qed.

Lemma close_position_cases (st st' : State R) (symbol : string) (p : R)
    (time : Z) (why : string) :
  close_position st symbol p time why = Some st' ->
  st' = st
  \/ exists pos t,
       dict_get symbol (positions st) = Some pos
       /\ st' = {| balance := balance st [+] (cost pos [+] position_pnl pos p);
                   positions := dict_del symbol (positions st);
                   trades_history := trades_history st ++ [t] |}.
Proof.
  unfold close_position.
  destruct (dict_get symbol (positions st)) as [pos|] eqn:Hget.
  - intros E. apply bind_some in E. destruct E as (pct & Ep & E).
    right. inversion E. eauto.
  - intros E. inversion E. now left.
Qed.

(** Every open position carries the exit levels computed from its entry. *)
Lemma reachable_levels (st : State R) :
  reachable config initial_balance st ->
  forall symbol pos,
    dict_get symbol (positions st) = Some pos -> levels_fixed config pos.
Proof.
  induction 1 as [|st st' s sd price time info Hr IH Hop
                  |st st' s price time why Hr IH Hcl]; intros symbol pos Hget.
  - discriminate.
  - apply open_position_cases in Hop.
    destruct Hop as [->|(_ & _ & qty & _ & ->)]; [eauto|].
    simpl in Hget. destruct (String.eqb s symbol) eqn:E.
    + apply String.eqb_eq in E. subst s.
      rewrite dict_get_set_same in Hget. inversion Hget. now split.
    + apply String.eqb_neq in E.
      rewrite dict_get_set_other in Hget by exact E. eauto.
  - apply close_position_cases in Hcl.
    destruct Hcl as [->|(pos' & t & _ & ->)]; [eauto|].
    simpl in Hget. destruct (String.eqb s symbol) eqn:E.
    + apply String.eqb_eq in E. subst s.
      rewrite dict_get_del_same in Hget. discriminate.
    + apply String.eqb_neq in E.
      rewrite dict_get_del_other in Hget by exact E. eauto.
Qed.

Lemma manage_positions_reachable (st st' : State R) (symbol : string)
    (price : R) (time : Z) (signals : nat * nat) (by_tf : dict (Patterns R)) :
  reachable config initial_balance st ->
  manage_positions config st symbol price time signals by_tf = Some st' ->
  reachable config initial_balance st'.
Proof.
  intros Hr. unfold manage_positions.
  destruct (dict_get symbol (positions st)) as [pos|].
  - destruct (side pos); case_if; intros E;
      solve [ inversion E; subst; exact Hr
            | eapply reach_close; eauto ].
  - case_if; intros E;
      solve [ inversion E; subst; exact Hr
            | eapply reach_open; eauto ].
Qed.

End LedgerProperties.

(** ** The states of [run_backtest] are reachable *)

Section RunProperties.
Context {R : Type} `{Arith R} `{IndexLookup}.
Variable config : TradingConfig R.
Variable initial_balance : R.

Lemma bar_step_reachable (historical_data : dict (DataFrame R))
    (timeframes : dict (list string)) (symbol : string) (i : nat)
    (acc acc' : State R * list (Snapshot R)) :
  reachable config initial_balance (fst acc) ->
  bar_step config historical_data timeframes symbol i acc = Some acc' ->
  reachable config initial_balance (fst acc').
Proof.
  intros Hr E. unfold bar_step in E.
  do 5 (apply bind_some in E; destruct E as (? & _ & E)).
  apply bind_some in E. destruct E as (st & Em & E).
  inversion E. simpl. eapply manage_positions_reachable; eauto.
Qed.

Lemma symbol_step_reachable (historical_data : dict (DataFrame R))
    (timeframes : dict (list string)) (symbol : string)
    (acc acc' : State R * list (Snapshot R)) :
  reachable config initial_balance (fst acc) ->
  symbol_step config historical_data timeframes symbol acc = Some acc' ->
  reachable config initial_balance (fst acc').
Proof.
  intros Hr E. unfold symbol_step in E.
  apply bind_some in E. destruct E as (tf0 & _ & E).
  apply bind_some in E. destruct E as (primary & _ & E).
  revert E.
  apply (for_each_invariant
           (fun a => reachable config initial_balance (fst a))); [|exact Hr].
  intros i s s'. apply bar_step_reachable.
Qed.

(** The final state of the simulation, and with it every state of the bar
    loop, comes from the reset state by open and close operations only. *)
Lemma simulate_reachable (historical_data : dict (DataFrame R))
    (st : State R) (hist : list (Snapshot R)) :
  simulate config initial_balance historical_data = Some (st, hist) ->
  reachable config initial_balance st.
Proof.
  intros E. unfold simulate in E.
  apply bind_some in E. destruct E as (timeframes & _ & E).
  apply bind_some in E. destruct E as (acc & Eacc & E).
  apply bind_some in E. destruct E as (final_prices & _ & E).
  apply bind_some in E. destruct E as (st1 & Est & E).
  inversion E. subst st1.
  assert (Hacc : reachable config initial_balance (fst acc)).
  { revert Eacc.
    apply (for_each_invariant
             (fun a => reachable config initial_balance (fst a)));
      [|apply reach_init].
    intros symbol s s'. apply symbol_step_reachable. }
  revert Est. apply for_each_invariant; [|exact Hacc].
  intros symbol s s' Hs Ecl. unfold final_close_step in Ecl.
  do 4 (apply bind_some in Ecl; destruct Ecl as (? & _ & Ecl)).
  eapply reach_close; eauto.
Qed.

End RunProperties.

(** ** Votes *)

Section VoteProperties.
Context {R : Type} `{Arith R}.

Lemma timeframe_votes_spec (signals : nat * nat) (p : Patterns R) :
  timeframe_votes signals p
  = (fst signals + buy_votes p, snd signals + sell_votes p).
Proof.
  unfold timeframe_votes, buy_votes, sell_votes, latest_vote, vote.
  destruct signals as [b s].
  destruct (last_error (order_blocks p)) as [[[] ? ? ?]|];
    destruct (last_error (fair_value_gaps p)) as [[[] ? ? ?]|];
    simpl; f_equal; lia.
Qed.

Lemma fold_votes_spec (ps : list (Patterns R)) (signals : nat * nat) :
  fold_left timeframe_votes ps signals
  = (fst signals + list_sum (map buy_votes ps),
     snd signals + list_sum (map sell_votes ps)).
Proof.
  revert signals. induction ps as [|p ps IH]; intros signals; simpl.
  - destruct signals. simpl. f_equal; lia.
  - rewrite IH, timeframe_votes_spec. simpl. f_equal; lia.
Qed.

End VoteProperties.

(** ** The claims on the ledger *)

Section LedgerClaims.
Context {R : Type} `{Arith R}.
Variable config : TradingConfig R.
Variable initial_balance : R.

(** C1 (amended).  On an empty trade list the metrics calculation does not
    raise and returns a fully populated structure: every field is zero except
    [final_balance], which is the current cash balance. *)
Theorem calculate_metrics_empty (b : R) (ps : dict (Position R)) :
  calculate_metrics initial_balance
    {| balance := b; positions := ps; trades_history := [] |}
  = Some {| total_trades := 0; profitable_trades := 0; win_rate := of_nat 0;
            total_pnl := of_nat 0; total_return := of_nat 0;
            average_pnl := of_nat 0; max_drawdown := of_nat 0;
            final_balance := b; profit_factor := Fin (of_nat 0) |}.
Proof. reflexivity. Qed.

(** C2.  Closing the open position [pos] of [symbol] at exit price [p], when
    the percentage division does not raise: the cash balance becomes the
    balance before plus ([cost] plus [pnl]), where [pnl] is
    [(p - entry) * quantity] for a long position and [(entry - p) * quantity]
    for a short one; exactly one trade, carrying that [pnl], is appended; the
    position is removed. *)
Theorem close_position_balance (st : State R) (symbol : string)
    (pos : Position R) (p : R) (time : Z) (why : string) (pct : R) :
  dict_get symbol (positions st) = Some pos ->
  div (position_pnl pos p) (cost pos) = Some pct ->
  exists st' t,
    close_position st symbol p time why = Some st'
    /\ pnl t = match side pos with
               | BUY => (p [-] entry_price pos) [*] position_size pos
               | SELL => (entry_price pos [-] p) [*] position_size pos
               end
    /\ balance st' = balance st [+] (cost pos [+] pnl t)
    /\ trades_history st' = trades_history st ++ [t]
    /\ dict_get symbol (positions st') = None.
Proof.
  intros Hget Hdiv. eexists. exists (closed_trade symbol pos p time why pct).
  split; [apply (close_position_some _ _ _ _ _ _ _ Hget Hdiv)|]. simpl.
  split; [reflexivity|]. split; [reflexivity|]. split; [reflexivity|].
  apply dict_get_del_same.
Qed.


(** A position other than the one a bar manages is left as it is; the one
    it manages stays as it is or is closed. *)
Lemma manage_positions_frame (st st' : State R) (symbol other : string)
    (pos : Position R) (price : R) (time : Z) (signals : nat * nat)
    (by_tf : dict (Patterns R)) :
  dict_get symbol (positions st) = Some pos ->
  manage_positions config st other price time signals by_tf = Some st' ->
  dict_get symbol (positions st') = Some pos
  \/ (other = symbol /\ dict_get symbol (positions st') = None).
Proof.
  intros Hget E. revert E. generalize st'. clear st'.
  intros st' E.
  unfold manage_positions in E.
  destruct (String.eqb other symbol) eqn:Eo.
  + apply String.eqb_eq in Eo. subst other. rewrite Hget in E.
    assert (Hc : forall why,
               close_position st symbol price time why = Some st' ->
               dict_get symbol (positions st') = Some pos
               \/ (symbol = symbol /\ dict_get symbol (positions st') = None)).
    { intros why Ec. apply close_position_cases in Ec.
      destruct Ec as [->|(pos' & t & _ & ->)]; [now left|].
      right. split; [reflexivity|]. simpl. apply dict_get_del_same. }
    destruct (side pos); revert E; case_if; intros E; eauto;
      inversion E; subst; now left.
  + apply String.eqb_neq in Eo. left.
    destruct (dict_get other (positions st)) as [pos'|].
    * assert (Hc : forall why,
                 close_position st other price time why = Some st' ->
                 dict_get symbol (positions st') = Some pos).
      { intros why Ec. apply close_position_cases in Ec.
        destruct Ec as [->|(pos'' & t & _ & ->)]; [exact Hget|].
        simpl. now rewrite dict_get_del_other. }
      destruct (side pos'); revert E; case_if; intros E; eauto;
        inversion E; subst; exact Hget.
    * assert (Ho : forall sd,
                 open_position config st other sd price time by_tf = Some st' ->
                 dict_get symbol (positions st') = Some pos).
      { intros sd Eop. apply open_position_cases in Eop.
        destruct Eop as [->|(_ & _ & qty & _ & ->)]; [exact Hget|].
        simpl. now rewrite dict_get_set_other. }
      revert E; case_if; intros E; eauto; inversion E; subst; exact Hget.
Qed.

(** C5.  In every state of a run, that is after every open and every close
    operation, the number of open positions is at most [MAX_POSITIONS] and no
    symbol has two open positions. *)
Theorem position_limits (st : State R) :
  reachable config initial_balance st ->
  List.length (positions st) <= MAX_POSITIONS config
  /\ NoDup (dict_keys (positions st)).
Proof.
  induction 1 as [|st st' s sd price time info Hr [IHlen IHnd] Hop
                  |st st' s price time why Hr [IHlen IHnd] Hcl].
  - simpl. split; [lia | constructor].
  - apply open_position_cases in Hop.
    destruct Hop as [->|(Hlt & _ & qty & _ & ->)]; [now split|].
    simpl. split.
    + pose proof (dict_set_length s
                    {| side := sd; entry_price := price;
                       stop_loss := stop_level config sd price;
                       take_profit := target_level config sd price;
                       position_size := qty;
                       cost := balance st [*] POSITION_SIZE config;
                       pattern := info; pos_timestamp := time |}
                    (positions st)). lia.
    + now apply dict_set_keys_nodup.
  - apply close_position_cases in Hcl.
    destruct Hcl as [->|(pos & t & _ & ->)]; [now split|].
    simpl. split.
    + pose proof (dict_del_length s (positions st)). lia.
    + now apply dict_del_keys_nodup.
Qed.

End LedgerClaims.

Lemma for_each_app {A S} (xs ys : list A) (body : A -> S -> option S) (s : S) :
  for_each (xs ++ ys) body s
  = (s1 <- for_each xs body s ;; for_each ys body s1).
Proof.
  revert s. induction xs as [|x xs IH]; intros s; simpl; [reflexivity|].
  destruct (body x s); simpl; auto.
Qed.

Lemma range_split (a b i : nat) :
  a <= i < b -> range a b = range a i ++ i :: range (i + 1) b.
Proof.
  intros Hi. unfold range.
  replace (b - a) with ((i - a) + S (b - (i + 1))) by lia.
  rewrite seq_app. replace (a + (i - a)) with i by lia. simpl.
  now replace (i + 1) with (S i) by lia.
Qed.

Section ExitClaims.
Context {R : Type} `{Arith R} `{IndexLookup}.
Variable config : TradingConfig R.
Variable initial_balance : R.

(** C4.  The open position [pos] of [symbol] in a state of a run.  Its exit
    levels are those fixed at the open: [entry * (1 - STOP_LOSS_PERCENT)] and
    [entry * (1 + TAKE_PROFIT_PERCENT)] for a long position, the signs
    exchanged for a short one.  The iteration of the bar loop for a bar of
    [symbol] compares the Close of that bar with these levels: a long
    position is closed at that Close, at the time of the bar, with reason
    Stop Loss when the Close is at or below the stop, otherwise with reason
    Take Profit when it is at or above the target; a short position mirrors
    the comparisons; the stop loss is tested first; otherwise the state is
    kept; in every case one equity snapshot is recorded.  Such a close
    removes the position and appends one trade with that reason.  No
    iteration changes an open position: it stays as it is or is closed.  The
    loop of a symbol runs this iteration for every bar of its primary
    series, in order. *)
Theorem exit_rules (st : State R) (symbol : string) (pos : Position R) :
  reachable config initial_balance st ->
  dict_get symbol (positions st) = Some pos ->
  let entry := entry_price pos in
  (stop_loss pos
   = match side pos with
     | BUY => entry [*] (of_nat 1 [-] STOP_LOSS_PERCENT config)
     | SELL => entry [*] (of_nat 1 [+] STOP_LOSS_PERCENT config)
     end
   /\ take_profit pos
      = match side pos with
        | BUY => entry [*] (of_nat 1 [+] TAKE_PROFIT_PERCENT config)
        | SELL => entry [*] (of_nat 1 [-] TAKE_PROFIT_PERCENT config)
        end)
  /\ (forall (historical_data : dict (DataFrame R)) timeframes i hist tf0
             (primary : DataFrame R) bar tfs by_tf,
        hd_error (TIMEFRAMES config) = Some tf0 ->
        dict_get (data_key symbol tf0) historical_data = Some primary ->
        nth_error primary i = Some bar ->
        dict_get symbol timeframes = Some tfs ->
        for_each tfs
          (analyze_timeframe config historical_data symbol (timestamp bar)) []
        = Some by_tf ->
        let price := Close bar in
        let time := timestamp bar in
        let record st' :=
          Some (st', hist ++ [{| snap_timestamp := time;
                                 snap_balance := equity st' price |}]) in
        let close why :=
          st' <- close_position st symbol price time why ;; record st' in
        bar_step config historical_data timeframes symbol i (st, hist)
        = match side pos with
          | BUY =>
              if price [<=] entry [*] (of_nat 1 [-] STOP_LOSS_PERCENT config)
              then close "Stop Loss"
              else if entry [*] (of_nat 1 [+] TAKE_PROFIT_PERCENT config)
                      [<=] price
              then close "Take Profit"
              else record st
          | SELL =>
              if entry [*] (of_nat 1 [+] STOP_LOSS_PERCENT config) [<=] price
              then close "Stop Loss"
              else if price
                      [<=] entry [*] (of_nat 1 [-] TAKE_PROFIT_PERCENT config)
              then close "Take Profit"
              else record st
          end)
  /\ (forall price time why pct,
        div (position_pnl pos price) (cost pos) = Some pct ->
        exists st' t,
          close_position st symbol price time why = Some st'
          /\ dict_get symbol (positions st') = None
          /\ trades_history st' = trades_history st ++ [t]
          /\ reason t = why /\ trade_exit_price t = price
          /\ exit_time t = time)
  /\ (forall historical_data timeframes other j hist acc',
        bar_step config historical_data timeframes other j (st, hist)
        = Some acc' ->
        dict_get symbol (positions (fst acc')) = Some pos
        \/ (other = symbol /\ dict_get symbol (positions (fst acc')) = None))
  /\ (forall (historical_data : dict (DataFrame R)) timeframes tf0
             (primary : DataFrame R) acc acc' i,
        hd_error (TIMEFRAMES config) = Some tf0 ->
        dict_get (data_key symbol tf0) historical_data = Some primary ->
        symbol_step config historical_data timeframes symbol acc = Some acc' ->
        i < List.length primary ->
        exists a a' bar,
          nth_error primary i = Some bar
          /\ for_each (range 0 i)
               (bar_step config historical_data timeframes symbol) acc
             = Some a
          /\ bar_step config historical_data timeframes symbol i a = Some a'
          /\ for_each (range (i + 1) (List.length primary))
               (bar_step config historical_data timeframes symbol) a'
             = Some acc').
Proof.
  intros Hr Hget entry.
  destruct (reachable_levels config initial_balance st Hr symbol pos Hget)
    as [Hsl Htp].
  unfold stop_level in Hsl. unfold target_level in Htp. fold entry in Hsl, Htp.
  split; [split; assumption|]. split; [|split; [|split]].
  - intros historical_data timeframes i hist tf0 primary bar tfs by_tf
      Htf Hprim Hbar Htfs Hpat price time record close.
    unfold bar_step, iloc. cbn [fst snd].
    rewrite Htf. cbn [bind]. rewrite Hprim. cbn [bind].
    rewrite Hbar. cbn [bind]. rewrite Htfs. cbn [bind].
    rewrite Hpat. cbn [bind].
    unfold manage_positions. rewrite Hget, Hsl, Htp.
    unfold close, record, price, time.
    destruct (side pos); case_if; reflexivity.
  - intros price time why pct Hdiv.
    eexists. exists (closed_trade symbol pos price time why pct).
    split; [apply (close_position_some _ _ _ _ _ _ _ Hget Hdiv)|]. simpl.
    split; [apply dict_get_del_same|]. repeat split.
  - intros historical_data timeframes other j hist acc' E.
    unfold bar_step in E.
    do 5 (apply bind_some in E; destruct E as (? & _ & E)).
    apply bind_some in E. destruct E as (st' & Em & E).
    inversion E. simpl. simpl in Em.
    eapply manage_positions_frame; eauto.
  - intros historical_data timeframes tf0 primary acc acc' i
      Htf Hprim Esym Hi.
    unfold symbol_step in Esym. rewrite Htf in Esym. cbn [bind] in Esym.
    rewrite Hprim in Esym. cbn [bind] in Esym.
    rewrite (range_split 0 (List.length primary) i) in Esym by lia.
    rewrite for_each_app in Esym.
    apply bind_some in Esym. destruct Esym as (a & Ea & Esym).
    cbn [for_each] in Esym.
    apply bind_some in Esym. destruct Esym as (a' & Ea' & Esym).
    destruct (nth_error_lt primary i Hi) as [bar Hbar].
    exists a, a', bar. repeat split; assumption.
Qed.

End ExitClaims.

(** C9 (amended).  An [open_position] whose cost [balance * POSITION_SIZE]
    strictly exceeds the cash balance changes nothing: no position, same
    cash, same history.  An [open_position] that changes the state has found
    the test [cost > balance] false, debits exactly the cost and records it
    in the new position; this holds in every arithmetic.  In exact
    arithmetic it follows that the cash is then not negative, so that a cash
    balance that is not negative before an open operation is not negative
    after it. *)
Theorem open_position_guard :
  (forall (R : Type) (A : Arith R) (config : TradingConfig R) (st : State R)
          (symbol : string) (sd : Side) (price : R) (time : Z)
          (info : dict (Patterns R)),
     (balance st [<] calculate_position_size config st = true ->
      open_position config st symbol sd price time info = Some st)
     /\ (forall st',
           open_position config st symbol sd price time info = Some st' ->
           st' = st
           \/ (balance st [<] calculate_position_size config st = false
               /\ balance st' = balance st [-] calculate_position_size config st
               /\ exists pos,
                    dict_get symbol (positions st') = Some pos
                    /\ cost pos = calculate_position_size config st)))
  /\ (forall (config : TradingConfig Q) (st st' : State Q) (symbol : string)
             (sd : Side) (price : Q) (time : Z) (info : dict (Patterns Q)),
        open_position config st symbol sd price time info = Some st' ->
        (st' = st \/ (0 <= balance st')%Q)
        /\ ((0 <= balance st)%Q -> (0 <= balance st')%Q)).
Proof.
  split.
  - intros R A config st symbol sd price time info. split.
    + intros Hcost. unfold open_position. rewrite Hcost. case_if; reflexivity.
    + intros st' E. apply open_position_cases in E.
      destruct E as [->|(_ & Hcost & qty & _ & ->)]; [now left|].
      right. unfold calculate_position_size. split; [exact Hcost|].
      split; [reflexivity|]. eexists. simpl.
      split; [apply dict_get_set_same | reflexivity].
  - intros config st st' symbol sd price time info E.
    assert (Hcases : st' = st \/ (0 <= balance st')%Q).
    { apply open_position_cases in E.
      destruct E as [->|(_ & Hcost & qty & _ & ->)]; [now left|].
      right. simpl. apply Q_ltb_false in Hcost. q_ops.
      set (c := (balance st * POSITION_SIZE config)%Q) in *. clearbody c.
      lra. }
    split; [exact Hcases|].
    intros Hb. destruct Hcases as [->|Hn]; assumption.
Qed.

(** ** Concrete runs *)

Lemma spike_lows_positive (c : Candle Q) :
  In c spike_bars -> of_nat 0 [<] Low c = true /\ of_nat 0 [<] High c = true.
Proof.
  intros Hin. simpl in Hin.
  repeat (destruct Hin as [<-|Hin]; [split; reflexivity|]). destruct Hin.
Qed.

Lemma short_state_reachable : reachable btc_config 10000%Q short_state.
Proof.
  eapply reach_open; [apply reach_init|].
  instantiate (1 := []). instantiate (1 := 2%Z). instantiate (1 := 94%Q).
  instantiate (1 := SELL). instantiate (1 := "BTCUSDT"). reflexivity.
Qed.

(** In exact arithmetic the balance after a close is the balance before plus
    the reserved cost plus the pnl, in whichever order they are added. *)
Lemma close_position_balance_Q (st : State Q) (symbol : string)
    (pos : Position Q) (p : Q) (time : Z) (why : string) (pct : Q) :
  dict_get symbol (positions st) = Some pos ->
  div (position_pnl pos p) (cost pos) = Some pct ->
  exists st',
    close_position st symbol p time why = Some st'
    /\ (balance st' == balance st + cost pos + position_pnl pos p)%Q.
Proof.
  intros Hget Hdiv. eexists.
  split; [apply (close_position_some _ _ _ _ _ _ _ Hget Hdiv)|].
  simpl. ring.
Qed.

(** With a division that raises on a zero divisor, a zero Low after a
    reversal makes [analyze_patterns] raise. *)
Lemma analyze_patterns_zero_low :
  analyze_patterns btc_config [candle 0 1 2 1 2; candle 1 2 2 0 1] = None.
Proof. reflexivity. Qed.

(** The claim of C10 as written fails: positivity is not required.  In
    binary64 with the division of numpy, on a window that holds a zero Low,
    [analyze_patterns] returns; the range ratio is infinite and a bullish
    order block is emitted. *)
Lemma analyze_patterns_zero_low_returns :
  (exists c, In c zero_low_window /\ of_nat 0 [<] Low c = false)
  /\ analyze_patterns float_config zero_low_window
     = Some {| liquidity_levels := [];
               order_blocks :=
                 [{| zone_type := bullish; top := 2%float; bottom := 1%float;
                     zone_timestamp := 0%Z |}];
               fair_value_gaps := [] |}.
Proof.
  split.
  - exists (float_candle 1 2 2 0 1). split; [right; now left | reflexivity].
  - vm_compute. reflexivity.
Qed.

(** In binary64 the last part of C9 needs finite cash.  A long position
    opened at a Close of zero has an infinite quantity; closed at a positive
    price it leaves an infinite cash balance; the next [open_position] passes
    the guard, since infinity is not above infinity, and leaves a cash
    balance that is not a number, with a new position. *)
Lemma open_position_infinite_cash :
  open_position float_config (init_state 10000%float) "BTCUSDT" BUY
    0%float 0%Z [] = Some zero_entry_state
  /\ close_position zero_entry_state "BTCUSDT" 1%float 1%Z "Take Profit"
     = Some infinite_cash_state
  /\ open_position float_config infinite_cash_state "BTCUSDT" BUY 1%float 2%Z []
     = Some reopened_state
  /\ reachable float_config 10000%float reopened_state
  /\ of_nat 0 [<=] balance infinite_cash_state = true
  /\ of_nat 0 [<=] balance reopened_state = false
  /\ dict_mem "BTCUSDT" (positions reopened_state) = true.
Proof.
  assert (E1 : open_position float_config (init_state 10000%float) "BTCUSDT"
                 BUY 0%float 0%Z [] = Some zero_entry_state)
    by (vm_compute; reflexivity).
  assert (E2 : close_position zero_entry_state "BTCUSDT" 1%float 1%Z
                 "Take Profit" = Some infinite_cash_state)
    by (vm_compute; reflexivity).
  assert (E3 : open_position float_config infinite_cash_state "BTCUSDT" BUY
                 1%float 2%Z [] = Some reopened_state)
    by (vm_compute; reflexivity).
  split; [exact E1|]. split; [exact E2|]. split; [exact E3|]. split.
  - eapply reach_open; [|exact E3]. eapply reach_close; [|exact E2].
    eapply reach_open; [|exact E1]. apply reach_init.
  - split; [vm_compute; reflexivity|]. split; vm_compute; reflexivity.
Qed.

(** The run on [spike_data]: the table of timeframes, and a final cash
    balance below zero. *)
Lemma spike_run_result :
  for_each spike_data timeframes_step [] = Some spike_timeframes
  /\ exists r,
       run_backtest (H0 := nearest_lookup) btc_config 10000%Q spike_data = Some r
       /\ (final_balance (metrics r) == - (9900))%Q
       /\ List.length (trades r) = 1.
Proof.
  split; [reflexivity|]. eexists. split; [vm_compute; reflexivity|].
  split; reflexivity.
Qed.

(** ** The claims on concrete data *)

(** The claim of C1 as written fails: on a fresh backtester with a balance of
    10000 and no trade, [final_balance] is 10000, not zero. *)
Lemma calculate_metrics_empty_final_balance :
  exists m,
    calculate_metrics 10000%Q (init_state 10000%Q) = Some m
    /\ total_trades m = 0 /\ trades_history (init_state 10000%Q) = []
    /\ ~ (final_balance m == 0)%Q.
Proof.
  eexists. split; [reflexivity|]. split; [reflexivity|].
  split; [reflexivity|]. simpl. intros E. discriminate E.
Qed.

Lemma close_position_balance_witness :
  dict_get "BTCUSDT" (positions short_state) = Some short_position
  /\ div (position_pnl short_position 18800%Q) (cost short_position)
     = Some (position_pnl short_position 18800 / cost short_position)%Q
  /\ exists st' t,
       close_position short_state "BTCUSDT" 18800%Q 3%Z "Stop Loss" = Some st'
       /\ balance st'
          = balance short_state [+] (cost short_position [+] pnl t)
       /\ trades_history st' = trades_history short_state ++ [t].
Proof.
  assert (Hget : dict_get "BTCUSDT" (positions short_state)
                 = Some short_position) by reflexivity.
  assert (Hdiv : div (position_pnl short_position 18800%Q) (cost short_position)
                 = Some (position_pnl short_position 18800
                         / cost short_position)%Q) by reflexivity.
  split; [exact Hget|]. split; [exact Hdiv|].
  destruct (close_position_balance short_state "BTCUSDT" short_position
              18800%Q 3%Z "Stop Loss" _ Hget Hdiv)
    as (st' & t & Hc & _ & Hb & Ht & _).
  exists st', t. repeat split; assumption.
Defined.



Lemma exit_rules_witness :
  reachable btc_config 10000%Q short_state
  /\ dict_get "BTCUSDT" (positions short_state) = Some short_position
  /\ nth_error spike_bars 3 = Some (candle 3 94 18800 94 18800)
  /\ bar_step (H0 := nearest_lookup) btc_config spike_data spike_timeframes
       "BTCUSDT" 3 (short_state, [])
     = (st' <- close_position short_state "BTCUSDT" 18800%Q 3%Z "Stop Loss" ;;
        Some (st', [{| snap_timestamp := 3%Z;
                       snap_balance := equity st' 18800%Q |}])).
Proof.
  assert (Hget : dict_get "BTCUSDT" (positions short_state)
                 = Some short_position) by reflexivity.
  assert (Hbar : nth_error spike_bars 3 = Some (candle 3 94 18800 94 18800))
    by reflexivity.
  split; [exact short_state_reachable|]. split; [exact Hget|].
  split; [exact Hbar|].
  destruct (exit_rules (H0 := nearest_lookup) btc_config 10000%Q short_state
              "BTCUSDT" short_position short_state_reachable Hget)
    as (_ & Hbarstep & _).
  destruct (spike_patterns 3) as [by_tf|] eqn:Hpat;
    [|vm_compute in Hpat; discriminate Hpat].
  rewrite (Hbarstep spike_data spike_timeframes 3 [] "1h" spike_bars
             (candle 3 94 18800 94 18800) ["1h"] by_tf
             eq_refl eq_refl Hbar eq_refl Hpat).
  reflexivity.
Defined.

Lemma position_limits_witness :
  reachable btc_config 10000%Q short_state
  /\ List.length (positions short_state) <= MAX_POSITIONS btc_config
  /\ NoDup (dict_keys (positions short_state)).
Proof.
  split; [exact short_state_reachable|].
  exact (position_limits btc_config 10000%Q short_state short_state_reachable).
Defined.

Lemma order_blocks_spec_witness :
  (forall c x, In c spike_bars -> div x (Low c) <> None)
  /\ exists obs,
       identify_order_blocks btc_config spike_bars = Some obs
       /\ List.length obs = 3.
Proof.
  assert (Hdiv : forall (c : Candle Q) (x : Q),
             In c spike_bars -> div x (Low c) <> None)
    by (intros c x Hin; apply div_pos; now apply spike_lows_positive).
  split; [exact Hdiv|].
  destruct (order_blocks_spec btc_config spike_bars Hdiv)
    as (obs & E & -> & _).
  eexists. split; [exact E | reflexivity].
Defined.

Lemma fair_value_gaps_spec_witness :
  (forall c x, In c spike_bars -> div x (High c) <> None)
  /\ exists gaps,
       identify_fair_value_gaps btc_config spike_bars = Some gaps
       /\ List.length gaps = 2.
Proof.
  assert (Hdiv : forall (c : Candle Q) (x : Q),
             In c spike_bars -> div x (High c) <> None)
    by (intros c x Hin; apply div_pos; now apply spike_lows_positive).
  split; [exact Hdiv|].
  destruct (fair_value_gaps_spec btc_config spike_bars Hdiv)
    as (gaps & E & -> & _).
  eexists. split; [exact E | reflexivity].
Defined.

Lemma liquidity_levels_spec_witness :
  exists levels,
    identify_liquidity_levels peak_bars = Some levels
    /\ filter is_resistance levels
       = [{| level_type := resistance; price := 20%Q; level_timestamp := 5%Z |}].
Proof.
  destruct (liquidity_levels_spec peak_bars) as (levels & E & _ & _ & Hpeak).
  exists levels. split; [exact E|].
  apply (Hpeak eq_refl (candle 5 14 20 13 15) eq_refl).
  intros j cj Hj Hne Hn. unfold window in Hj.
  assert (Hcases : j = 0 \/ j = 1 \/ j = 2 \/ j = 3 \/ j = 4 \/ j = 6 \/ j = 7
                   \/ j = 8 \/ j = 9 \/ j = 10) by lia.
  repeat (destruct Hcases as [->|Hcases];
          [inversion Hn; subst; reflexivity|]).
  subst j. inversion Hn; subst; reflexivity.
Defined.

(** The claim of C9 as written fails: the run on [spike_data] starts from a
    cash balance of 10000; its fifth bar calls [open_position], and the cash
    balance after that call is negative. *)
Lemma negative_balance_after_open :
  exists st hist st',
    (0 <= 10000)%Q
    /\ spike_run 4 = Some (st, hist)
    /\ spike_patterns 4 = Some buy_patterns
    /\ manage_positions btc_config st "BTCUSDT" 18100%Q 4%Z
         (count_signals buy_patterns) buy_patterns
       = open_position btc_config st "BTCUSDT" BUY 18100%Q 4%Z buy_patterns
    /\ open_position btc_config st "BTCUSDT" BUY 18100%Q 4%Z buy_patterns
       = Some st'
    /\ (balance st' < 0)%Q.
Proof.
  do 3 eexists.
  split; [discriminate|]. split; [vm_compute; reflexivity|].
  split; [vm_compute; reflexivity|]. split; [vm_compute; reflexivity|].
  split; [vm_compute; reflexivity|]. reflexivity.
Qed.

Lemma open_position_guard_witness :
  balance (spike_state 4) [<] calculate_position_size btc_config (spike_state 4)
  = true
  /\ open_position btc_config (spike_state 4) "BTCUSDT" BUY 18100%Q 4%Z
       buy_patterns
     = Some (spike_state 4)
  /\ ((0 <= balance (init_state 10000%Q))%Q -> (0 <= balance short_state)%Q).
Proof.
  assert (Hcost : balance (spike_state 4)
                  [<] calculate_position_size btc_config (spike_state 4) = true)
    by (vm_compute; reflexivity).
  split; [exact Hcost|].
  destruct open_position_guard as [Hany Hexact].
  destruct (Hany Q Q_Arith btc_config (spike_state 4) "BTCUSDT" BUY 18100%Q
              4%Z buy_patterns) as (Hnoop & _).
  split; [exact (Hnoop Hcost)|].
  apply (Hexact btc_config (init_state 10000%Q) short_state "BTCUSDT" SELL
           94%Q 2%Z []). reflexivity.
Defined.

Lemma analyze_patterns_total_witness :
  (forall c, In c spike_bars ->
     of_nat 0 [<] Low c = true /\ of_nat 0 [<] High c = true)
  /\ exists p, analyze_patterns btc_config spike_bars = Some p.
Proof.
  split; [exact spike_lows_positive|].
  destruct (analyze_patterns_total btc_config spike_bars spike_lows_positive)
    as (levels & _ & E).
  eexists. exact E.
Defined.

(** * Further properties of the code *)

(** ** Loops *)

(** An iteration that raises whatever the loop state makes the loop raise. *)
Lemma for_each_fail {A S} (body : A -> S -> option S) (xs : list A) (x : A) :
  In x xs -> (forall s, body x s = None) ->
  forall s, for_each xs body s = None.
Proof.
  induction xs as [|y xs IH]; intros Hin Hfail s; [destruct Hin|].
  simpl. destruct Hin as [->|Hin].
  - now rewrite Hfail.
  - destruct (body y s); simpl; auto.
Qed.

(** A measure that grows by [g x] at the iteration of [x]. *)
Lemma for_each_sum {A S} (f : S -> nat) (g : A -> nat)
    (body : A -> S -> option S) (xs : list A) :
  (forall x s s', body x s = Some s' -> f s' = f s + g x) ->
  forall s s', for_each xs body s = Some s' ->
  f s' = f s + list_sum (map g xs).
Proof.
  intros Hbody. induction xs as [|x xs IH]; simpl; intros s s' E.
  - inversion E. lia.
  - apply bind_some in E. destruct E as (s1 & E1 & E2).
    rewrite (IH _ _ E2), (Hbody _ _ _ E1). lia.
Qed.

Lemma list_sum_ones {A} (xs : list A) :
  list_sum (map (fun _ => 1) xs) = List.length xs.
Proof. induction xs; simpl; auto. Qed.

(** ** Keys of the historical data *)

Lemma split_on_no_char (sep : ascii) (s : string) :
  no_char sep s = true -> split_on sep s = [s].
Proof.
  induction s as [|c s IH]; simpl; [reflexivity|].
  intros E. apply andb_true_iff in E. destruct E as [Ec Es].
  apply negb_true_iff in Ec. rewrite Ec, (IH Es). reflexivity.
Qed.

(** X2.  The key [symbol_timeframe] built by [run_backtest] splits back into
    the symbol and the timeframe when neither contains an underscore. *)
Theorem split_data_key (symbol timeframe : string) :
  no_char "_" symbol = true -> no_char "_" timeframe = true ->
  split_on "_" (data_key symbol timeframe) = [symbol; timeframe].
Proof.
  intros Hs Ht. unfold data_key. induction symbol as [|c s IH]; simpl.
  - now rewrite (split_on_no_char _ _ Ht).
  - simpl in Hs. apply andb_true_iff in Hs. destruct Hs as [Ec Hs].
    apply negb_true_iff in Ec. rewrite Ec. simpl in IH. now rewrite (IH Hs).
Qed.

Lemma split_data_key_witness :
  no_char "_" "BTCUSDT" = true /\ no_char "_" "1h" = true
  /\ split_on "_" (data_key "BTCUSDT" "1h") = ["BTCUSDT"; "1h"].
Proof.
  split; [reflexivity|]. split; [reflexivity|].
  apply split_data_key; reflexivity.
Defined.

Section ShortWindows.
Context {R : Type} `{Arith R}.
Variable config : TradingConfig R.

(** X1.  Short windows.  With at most two candles the liquidity and the fair
    value gap detectors return the empty list without reading a candle, and
    with at most one candle so does the order block detector:
    [analyze_patterns] then returns three empty lists, whatever the prices. *)
Theorem short_window_no_pattern (df : DataFrame R) :
  List.length df <= 2 ->
  identify_liquidity_levels df = Some []
  /\ identify_fair_value_gaps config df = Some []
  /\ (List.length df <= 1 ->
      identify_order_blocks config df = Some []
      /\ analyze_patterns config df
         = Some {| liquidity_levels := []; order_blocks := [];
                   fair_value_gaps := [] |}).
Proof.
  intros Hlen.
  destruct df as [|c1 [|c2 [|c3 df]]]; simpl in Hlen; try lia;
    (split; [reflexivity|]; split; [reflexivity|]);
    intros H1; simpl in H1; try lia; split; reflexivity.
Qed.

End ShortWindows.

Lemma short_window_no_pattern_witness :
  List.length [candle 0 1 2 1 2; candle 1 2 2 0 1] <= 2
  /\ identify_fair_value_gaps btc_config [candle 0 1 2 1 2; candle 1 2 2 0 1]
     = Some [].
Proof.
  split; [simpl; lia|].
  apply (short_window_no_pattern btc_config
           [candle 0 1 2 1 2; candle 1 2 2 0 1]). simpl. lia.
Defined.

(** ** Errors and bookkeeping of [run_backtest] *)

Section RunErrors.
Context {R : Type} `{Arith R} `{IndexLookup}.
Variable config : TradingConfig R.
Variable initial_balance : R.

(** X3.  A key of the historical data that does not split at underscores
    into exactly a symbol and a timeframe makes [run_backtest] raise, before
    any bar is processed. *)
Theorem malformed_key_raises (historical_data : dict (DataFrame R))
    (key : string) (df : DataFrame R) :
  In (key, df) historical_data ->
  (forall a b, split_on "_" key <> [a; b]) ->
  run_backtest config initial_balance historical_data = None.
Proof.
  intros Hin Hsplit. unfold run_backtest, simulate.
  rewrite (for_each_fail timeframes_step historical_data (key, df) Hin);
    [reflexivity|].
  intros tfs. unfold timeframes_step. simpl.
  destruct (split_on "_" key) as [|a [|b [|c l]]] eqn:E; try reflexivity.
  exfalso. exact (Hsplit a b eq_refl).
Qed.


Lemma bar_step_history (historical_data : dict (DataFrame R))
    (timeframes : dict (list string)) (symbol : string) (i : nat)
    (acc acc' : State R * list (Snapshot R)) :
  bar_step config historical_data timeframes symbol i acc = Some acc' ->
  List.length (snd acc') = List.length (snd acc) + 1.
Proof.
  intros E. unfold bar_step in E.
  do 6 (apply bind_some in E; destruct E as (? & _ & E)).
  inversion E. simpl. rewrite length_app. reflexivity.
Qed.

Lemma symbol_step_history (historical_data : dict (DataFrame R))
    (timeframes : dict (list string)) (symbol : string)
    (acc acc' : State R * list (Snapshot R)) :
  symbol_step config historical_data timeframes symbol acc = Some acc' ->
  List.length (snd acc')
  = List.length (snd acc) + primary_length config historical_data symbol.
Proof.
  intros E. unfold symbol_step in E. unfold primary_length.
  apply bind_some in E. destruct E as (tf0 & Etf & E).
  apply bind_some in E. destruct E as (primary & Ep & E).
  rewrite Etf, Ep.
  apply (for_each_sum (fun a => List.length (snd a)) (fun _ => 1)) in E;
    [|intros i s s'; apply bar_step_history].
  rewrite list_sum_ones in E. unfold range in E. rewrite length_seq in E.
  rewrite E. f_equal. lia.
Qed.

(** X5.  One equity snapshot is recorded per processed bar: the balance
    history of a run has as many entries as the primary series of the
    configured symbols have bars. *)
Theorem one_snapshot_per_bar (historical_data : dict (DataFrame R))
    (r : Results R) :
  run_backtest config initial_balance historical_data = Some r ->
  List.length (balance_history r)
  = list_sum (map (primary_length config historical_data) (SYMBOLS config)).
Proof.
  intros E. unfold run_backtest in E.
  apply bind_some in E. destruct E as (acc & Esim & E).
  apply bind_some in E. destruct E as (m & _ & E).
  inversion E. simpl. clear E. unfold simulate in Esim.
  apply bind_some in Esim. destruct Esim as (tfs & _ & Esim).
  apply bind_some in Esim. destruct Esim as (acc1 & Eacc & Esim).
  apply bind_some in Esim. destruct Esim as (fp & _ & Esim).
  apply bind_some in Esim. destruct Esim as (st & _ & Esim).
  inversion Esim. simpl.
  apply (for_each_sum (fun a => List.length (snd a))
           (primary_length config historical_data)) in Eacc;
    [exact Eacc|].
  intros symbol s s'. apply symbol_step_history.
Qed.

End RunErrors.

Lemma malformed_key_raises_witness :
  In ("BTCUSDT", spike_bars) [("BTCUSDT", spike_bars)]
  /\ (forall a b, split_on "_" "BTCUSDT" <> [a; b])
  /\ run_backtest (H0 := nearest_lookup) btc_config 10000%Q
       [("BTCUSDT", spike_bars)] = None.
Proof.
  assert (Hin : In ("BTCUSDT", spike_bars) [("BTCUSDT", spike_bars)])
    by now left.
  assert (Hsplit : forall a b, split_on "_" "BTCUSDT" <> [a; b])
    by (intros a b; simpl; discriminate).
  split; [exact Hin|]. split; [exact Hsplit|].
  exact (malformed_key_raises (H0 := nearest_lookup) btc_config 10000%Q
           _ _ _ Hin Hsplit).
Defined.


Lemma one_snapshot_per_bar_witness :
  exists r,
    run_backtest (H0 := nearest_lookup) btc_config 10000%Q spike_data = Some r
    /\ List.length (balance_history r) = 5.
Proof.
  destruct (run_backtest (H0 := nearest_lookup) btc_config 10000%Q spike_data)
    as [r|] eqn:E.
  - exists r. split; [reflexivity|].
    rewrite (one_snapshot_per_bar (H0 := nearest_lookup) btc_config 10000%Q
               spike_data r E). reflexivity.
  - vm_compute in E. discriminate E.
Defined.

(** ** Further properties of the ledger *)

Lemma dict_get_none_keys {V} (k : string) (d : dict V) :
  dict_get k d = None -> ~ In k (dict_keys d).
Proof.
  induction d as [|[k1 v1] d IH]; simpl; [tauto|].
  destruct (String.eqb k k1) eqn:E; [discriminate|].
  apply String.eqb_neq in E. intros Hget [Hk|Hin]; [congruence|].
  now apply IH.
Qed.

Lemma dict_get_in_values {V} (k : string) (v : V) (d : dict V) :
  dict_get k d = Some v -> In v (dict_values d).
Proof.
  induction d as [|[k1 v1] d IH]; simpl; [discriminate|].
  destruct (String.eqb k k1); intros E.
  - inversion E. now left.
  - right. auto.
Qed.

Lemma dict_del_keys_neq {V} (k k' : string) (d : dict V) :
  In k' (dict_keys (dict_del k d)) -> k' <> k.
Proof.
  induction d as [|[k1 v1] d IH]; simpl; [tauto|].
  destruct (String.eqb k k1) eqn:E; simpl; auto.
  apply String.eqb_neq in E. intros [Hk|Hin]; [congruence | auto].
Qed.

Section LedgerExtras.
Context {R : Type} `{Arith R}.
Variable config : TradingConfig R.

(** X6.  Closing is idempotent: after a [close_position] of [symbol] that
    returns, the symbol has no open position, and a further [close_position]
    of it, at any price, changes nothing. *)
Theorem close_position_twice (st st' : State R) (symbol : string) (p : R)
    (time : Z) (why : string) :
  close_position st symbol p time why = Some st' ->
  dict_get symbol (positions st') = None
  /\ forall p2 time2 why2,
       close_position st' symbol p2 time2 why2 = Some st'.
Proof.
  intros E.
  assert (Hnone : dict_get symbol (positions st') = None).
  { unfold close_position in E.
    destruct (dict_get symbol (positions st)) as [pos|] eqn:Hget.
    - apply bind_some in E. destruct E as (pct & _ & E). inversion E. simpl.
      apply dict_get_del_same.
    - inversion E. subst. exact Hget. }
  split; [exact Hnone|].
  intros p2 time2 why2. unfold close_position. now rewrite Hnone.
Qed.

(** X7.  Each timeframe casts at most two votes, so the buy and the sell
    votes of a bar together are at most twice the number of timeframes
    analysed. *)
Theorem votes_bounded (by_tf : dict (Patterns R)) :
  fst (count_signals by_tf) + snd (count_signals by_tf)
  <= 2 * List.length by_tf.
Proof.
  unfold count_signals, dict_values. rewrite fold_votes_spec. simpl.
  induction by_tf as [|[tf p] d IH]; simpl; [lia|].
  assert (Hp : buy_votes p + sell_votes p <= 2).
  { unfold buy_votes, sell_votes, latest_vote.
    destruct (last_error (order_blocks p)) as [[[] ? ? ?]|];
      destruct (last_error (fair_value_gaps p)) as [[[] ? ? ?]|];
      simpl; lia. }
  lia.
Qed.

Lemma manage_positions_trades (st st' : State R) (symbol : string)
    (price : R) (time : Z) (signals : nat * nat) (by_tf : dict (Patterns R)) :
  manage_positions config st symbol price time signals by_tf = Some st' ->
  trades_history st' = trades_history st
  \/ exists t, trades_history st' = trades_history st ++ [t]
               /\ trade_symbol t = symbol /\ trade_exit_price t = price.
Proof.
  assert (Hc : forall why,
             close_position st symbol price time why = Some st' ->
             trades_history st' = trades_history st
             \/ exists t, trades_history st' = trades_history st ++ [t]
                          /\ trade_symbol t = symbol
                          /\ trade_exit_price t = price).
  { intros why E. unfold close_position in E.
    destruct (dict_get symbol (positions st)) as [pos|].
    - apply bind_some in E. destruct E as (pct & _ & E). inversion E. simpl.
      right. eexists. split; [reflexivity|]. split; reflexivity.
    - inversion E. now left. }
  assert (Ho : forall sd,
             open_position config st symbol sd price time by_tf = Some st' ->
             trades_history st' = trades_history st).
  { intros sd E. apply open_position_cases in E.
    destruct E as [->|(_ & _ & qty & _ & ->)]; reflexivity. }
  unfold manage_positions.
  destruct (dict_get symbol (positions st)) as [pos|].
  - destruct (side pos); case_if; intros E; eauto; inversion E; now left.
  - case_if; intros E; eauto; inversion E; now left.
Qed.

End LedgerExtras.

Lemma calculate_metrics_fields {R} `{Arith R} (initial_balance : R)
    (st : State R) (m : Metrics R) :
  calculate_metrics initial_balance st = Some m ->
  final_balance m = balance st
  /\ total_pnl m = sum (map pnl (trades_history st))
  /\ total_trades m = List.length (trades_history st).
Proof.
  unfold calculate_metrics.
  destruct (trades_history st) as [|t0 l] eqn:Et.
  - intros E. inversion E. simpl. repeat split.
  - cbv beta iota. intros E.
    do 5 (apply bind_some in E; destruct E as (? & _ & E)).
    inversion E. simpl. repeat split.
Qed.

Section RunExtras.
Context {R : Type} `{Arith R} `{IndexLookup}.
Variable config : TradingConfig R.
Variable initial_balance : R.

(** X8.  The trade history is append-only: a bar leaves the earlier trades
    as they are and appends at most one trade, of the symbol of the bar and
    exiting at the close of the bar. *)
Theorem bar_appends_at_most_one_trade (historical_data : dict (DataFrame R))
    (timeframes : dict (list string)) (symbol : string) (i : nat)
    (acc acc' : State R * list (Snapshot R)) :
  bar_step config historical_data timeframes symbol i acc = Some acc' ->
  trades_history (fst acc') = trades_history (fst acc)
  \/ exists t bar,
       trades_history (fst acc') = trades_history (fst acc) ++ [t]
       /\ trade_symbol t = symbol
       /\ In bar (List.concat (dict_values historical_data))
       /\ trade_exit_price t = Close bar.
Proof.
  intros E. unfold bar_step in E.
  apply bind_some in E. destruct E as (tf0 & Etf & E).
  apply bind_some in E. destruct E as (primary & Ep & E).
  apply bind_some in E. destruct E as (bar & Ebar & E).
  do 2 (apply bind_some in E; destruct E as (? & _ & E)).
  apply bind_some in E. destruct E as (st & Em & E).
  inversion E. simpl. clear E.
  apply manage_positions_trades in Em.
  destruct Em as [Em|(t & Et & Es & Ex)]; [now left|].
  right. exists t, bar. split; [exact Et|]. split; [exact Es|].
  split; [|exact Ex].
  apply in_concat. exists primary. split.
  - eapply dict_get_in_values; eauto.
  - eapply nth_error_In; eauto.
Qed.

Lemma final_close_empties (historical_data : dict (DataFrame R))
    (final_prices : dict R) (ks : list string) :
  forall st st',
    (forall k, In k (dict_keys (positions st)) -> In k ks) ->
    for_each ks (final_close_step config historical_data final_prices) st
    = Some st' ->
    positions st' = [].
Proof.
  induction ks as [|k ks IH]; simpl; intros st st' Hsub E.
  - inversion E. subst st'. destruct (positions st) as [|[k v] d]; auto.
    exfalso. apply (Hsub k). now left.
  - apply bind_some in E. destruct E as (st1 & E1 & E2).
    apply (IH st1 st'); [|exact E2].
    unfold final_close_step in E1.
    do 4 (apply bind_some in E1; destruct E1 as (? & _ & E1)).
    unfold close_position in E1.
    destruct (dict_get k (positions st)) as [pos|] eqn:Hget.
    + apply bind_some in E1. destruct E1 as (pct & _ & E1). inversion E1.
      simpl. intros k' Hk'.
      pose proof (dict_del_keys_neq _ _ _ Hk') as Hne.
      apply dict_del_keys_in in Hk'. destruct (Hsub k' Hk'); congruence.
    + inversion E1. subst st1. intros k' Hk'.
      destruct (Hsub k' Hk') as [<-|Hin]; [|exact Hin].
      exfalso. exact (dict_get_none_keys _ _ Hget Hk').
Qed.

Lemma simulate_positions_empty (historical_data : dict (DataFrame R))
    (st : State R) (hist : list (Snapshot R)) :
  simulate config initial_balance historical_data = Some (st, hist) ->
  positions st = [].
Proof.
  intros E. unfold simulate in E.
  apply bind_some in E. destruct E as (tfs & _ & E).
  apply bind_some in E. destruct E as (acc & _ & E).
  apply bind_some in E. destruct E as (fp & _ & E).
  apply bind_some in E. destruct E as (st1 & Est & E).
  inversion E. subst. eapply final_close_empties; [|exact Est]. auto.
Qed.


End RunExtras.

Lemma close_position_twice_witness :
  exists st',
    close_position short_state "BTCUSDT" 90%Q 3%Z "Take Profit" = Some st'
    /\ dict_get "BTCUSDT" (positions st') = None
    /\ close_position st' "BTCUSDT" 95%Q 4%Z "Stop Loss" = Some st'.
Proof.
  destruct (close_position short_state "BTCUSDT" 90%Q 3%Z "Take Profit")
    as [st'|] eqn:E.
  - exists st'. split; [reflexivity|].
    destruct (close_position_twice _ _ _ _ _ _ E) as [Hnone Hagain].
    split; [exact Hnone | apply Hagain].
  - vm_compute in E. discriminate E.
Defined.

Lemma bar_appends_at_most_one_trade_witness :
  exists acc',
    bar_step (H0 := nearest_lookup) btc_config spike_data spike_timeframes
      "BTCUSDT" 3 (short_state, []) = Some acc'
    /\ (trades_history (fst acc') = trades_history short_state
        \/ exists t bar,
             trades_history (fst acc') = trades_history short_state ++ [t]
             /\ trade_symbol t = "BTCUSDT"
             /\ In bar (List.concat (dict_values spike_data))
             /\ trade_exit_price t = Close bar).
Proof.
  destruct (bar_step (H0 := nearest_lookup) btc_config spike_data
              spike_timeframes "BTCUSDT" 3 (short_state, []))
    as [acc'|] eqn:E.
  - exists acc'. split; [reflexivity|].
    exact (bar_appends_at_most_one_trade (H0 := nearest_lookup) btc_config
             _ _ _ _ _ _ E).
  - vm_compute in E. discriminate E.
Defined.


(** ** The live bot and the backtester decide alike *)

Section LiveBotProperties.
Context {R V : Type} `{Arith R}.
Variable config : TradingConfig R.

(** X10.  [TradingBot.execute_trades] places no order when the position
    budget is used up or the symbol already has a position; otherwise it
    decides as the backtester does on the votes of a single timeframe: BUY
    with two buy votes, else SELL with two sell votes, else nothing.  So it
    buys exactly when the latest order block and the latest fair value gap
    are both bullish, and sells exactly when both are bearish. *)
Theorem execute_trades_agrees (open_positions : dict V) (patterns : Patterns R)
    (symbol timeframe : string) :
  let signals := count_signals [(timeframe, patterns)] in
  execute_trades config open_positions patterns symbol
  = (if MAX_POSITIONS config <=? List.length open_positions then None
     else if dict_mem symbol open_positions then None
     else if 2 <=? fst signals then Some BUY
     else if 2 <=? snd signals then Some SELL
     else None)
  /\ (execute_trades config open_positions patterns symbol = Some BUY <->
      List.length open_positions < MAX_POSITIONS config
      /\ dict_get symbol open_positions = None
      /\ exists ob fvg,
           last_error (order_blocks patterns) = Some ob
           /\ last_error (fair_value_gaps patterns) = Some fvg
           /\ zone_type ob = bullish /\ zone_type fvg = bullish)
  /\ (execute_trades config open_positions patterns symbol = Some SELL <->
      List.length open_positions < MAX_POSITIONS config
      /\ dict_get symbol open_positions = None
      /\ exists ob fvg,
           last_error (order_blocks patterns) = Some ob
           /\ last_error (fair_value_gaps patterns) = Some fvg
           /\ zone_type ob = bearish /\ zone_type fvg = bearish).
Proof.
  intros signals. unfold signals, count_signals, execute_trades, dict_mem.
  simpl. unfold timeframe_votes, vote. simpl.
  destruct (MAX_POSITIONS config <=? List.length open_positions) eqn:Emax.
  - apply Nat.leb_le in Emax. split; [reflexivity|].
    split; (split; [discriminate | intros (Hlt & _); lia]).
  - apply Nat.leb_gt in Emax.
    destruct (dict_get symbol open_positions) as [v|] eqn:Hget.
    + split; [reflexivity|].
      split; (split; [discriminate | intros (_ & Hn & _); discriminate]).
    + destruct (last_error (order_blocks patterns)) as [[[] ? ? ?]|];
        destruct (last_error (fair_value_gaps patterns)) as [[[] ? ? ?]|];
        simpl; (split; [reflexivity|]); split; split;
        try (intros E; discriminate E);
        try (intros _; split; [exact Emax|]; split; [reflexivity|];
             do 2 eexists; repeat split; reflexivity);
        intros (_ & _ & ob & fvg & E1 & E2 & T1 & T2);
        try discriminate E1; try discriminate E2;
        inversion E1; inversion E2; subst; simpl in *;
        try discriminate; reflexivity.
Qed.

End LiveBotProperties.

(** ** Metrics *)

Section MetricsLaws.
Context {R : Type} `{ArithLaws R}.
Variable initial_balance : R.

(** X11.  When the trade list is not empty and holds no losing trade, the
    profit factor reported is the infinity marker, also when no trade is
    winning. *)
Theorem no_loss_profit_factor (st : State R) (m : Metrics R) :
  calculate_metrics initial_balance st = Some m ->
  trades_history st <> [] ->
  (forall t, In t (trades_history st) -> pnl t [<] of_nat 0 = false) ->
  profit_factor m = Inf.
Proof.
  intros E Hne Hall. unfold calculate_metrics in E.
  assert (Hf : filter (fun t => pnl t [<] of_nat 0) (trades_history st) = []).
  { clear E Hne. induction (trades_history st) as [|t l IH]; [reflexivity|].
    simpl. rewrite (Hall t) by now left.
    apply IH. intros t' Ht'. apply Hall. now right. }
  destruct (trades_history st) as [|t0 l] eqn:Et; [congruence|].
  cbv beta iota in E. rewrite Hf in E.
  apply bind_some in E. destruct E as (rate & _ & E).
  apply bind_some in E. destruct E as (avg & _ & E).
  apply bind_some in E. destruct E as (dd & _ & E).
  apply bind_some in E. destruct E as (pf & Epf & E).
  apply bind_some in E. destruct E as (ret & _ & E).
  inversion E. simpl. clear E.
  simpl in Epf. unfold sum in Epf. simpl in Epf.
  rewrite ltb_irrefl in Epf. now inversion Epf.
Qed.

End MetricsLaws.

Lemma no_loss_profit_factor_witness :
  exists m,
    calculate_metrics 10000%Q profit_state = Some m
    /\ trades_history profit_state <> []
    /\ profit_factor m = Inf.
Proof.
  destruct (calculate_metrics 10000%Q profit_state) as [m|] eqn:E.
  - exists m. split; [reflexivity|].
    assert (Hne : trades_history profit_state <> [])
      by (vm_compute; discriminate).
    split; [exact Hne|].
    apply (no_loss_profit_factor 10000%Q profit_state m E Hne).
    intros t Ht. vm_compute in Ht. destruct Ht as [<-|[]].
    vm_compute. reflexivity.
  - vm_compute in E. discriminate E.
Defined.

(** ** Exits in exact arithmetic *)

Section ExitsQ.
Variable config : TradingConfig Q.
Variable initial_balance : Q.

(** X12.  For a position of a run with a positive entry price, a stop loss
    percentage that is not negative and a positive take profit percentage,
    the stop loss and the take profit tests cannot both hold at one price:
    the order of the two tests never decides an exit. *)
Theorem exit_conditions_exclusive (st : State Q) (symbol : string)
    (pos : Position Q) (price : Q) :
  reachable config initial_balance st ->
  dict_get symbol (positions st) = Some pos ->
  (0 < entry_price pos)%Q ->
  (0 <= STOP_LOSS_PERCENT config)%Q ->
  (0 < TAKE_PROFIT_PERCENT config)%Q ->
  match side pos with
  | BUY => ~ (price [<=] stop_loss pos = true
              /\ take_profit pos [<=] price = true)
  | SELL => ~ (stop_loss pos [<=] price = true
               /\ price [<=] take_profit pos = true)
  end.
Proof.
  intros Hr Hget He Hsl Htp.
  destruct (reachable_levels config initial_balance st Hr symbol pos Hget)
    as [Esl Etp].
  unfold stop_level in Esl. unfold target_level in Etp.
  destruct (side pos); intros [H1 H2];
    apply Q_leb_true in H1; apply Q_leb_true in H2;
    rewrite Esl in *; rewrite Etp in *; q_ops;
    change (inject_Z (Z.of_nat 1)) with 1%Q in *; clear Esl Etp Hget Hr;
    generalize dependent (entry_price pos);
    generalize dependent (STOP_LOSS_PERCENT config);
    generalize dependent (TAKE_PROFIT_PERCENT config); intros; nra.
Qed.

(** X13.  With a positive entry price, percentages that are not negative
    and a quantity that is not negative, an exit by stop loss never books a
    profit and an exit by take profit never books a loss. *)
Theorem exit_pnl_sign (st st' : State Q) (symbol : string) (pos : Position Q)
    (price : Q) (time : Z) (signals : nat * nat) (by_tf : dict (Patterns Q))
    (t : Trade Q) :
  reachable config initial_balance st ->
  dict_get symbol (positions st) = Some pos ->
  (0 < entry_price pos)%Q ->
  (0 <= STOP_LOSS_PERCENT config)%Q ->
  (0 <= TAKE_PROFIT_PERCENT config)%Q ->
  (0 <= position_size pos)%Q ->
  manage_positions config st symbol price time signals by_tf = Some st' ->
  trades_history st' = trades_history st ++ [t] ->
  (reason t = "Stop Loss" -> (pnl t <= 0)%Q)
  /\ (reason t = "Take Profit" -> (0 <= pnl t)%Q)
  /\ (reason t = "Stop Loss" \/ reason t = "Take Profit").
Proof.
  intros Hr Hget He Hsl Htp Hq Em Ht.
  destruct (reachable_levels config initial_balance st Hr symbol pos Hget)
    as [Esl Etp].
  unfold stop_level in Esl. unfold target_level in Etp.
  assert (Hclose : forall why,
             close_position st symbol price time why = Some st' ->
             reason t = why /\ pnl t = position_pnl pos price).
  { intros why Ec. unfold close_position in Ec. rewrite Hget in Ec.
    apply bind_some in Ec. destruct Ec as (pct & _ & Ec).
    inversion Ec. subst st'. simpl in Ht.
    apply app_inj_tail in Ht. destruct Ht as [_ <-]. now split. }
  assert (Hsame : Some st = Some st' -> False).
  { intros E. inversion E. subst st'.
    apply (f_equal (@List.length _)) in Ht. rewrite length_app in Ht.
    simpl in Ht. lia. }
  unfold manage_positions in Em. rewrite Hget in Em.
  unfold position_pnl in Hclose.
  destruct (side pos); revert Em; case_if; intros Em;
    try (exfalso; exact (Hsame Em));
    destruct (Hclose _ Em) as [Ereason Epnl];
    rewrite Ereason, Epnl;
    (split; [|split; [|auto]]); try discriminate; intros _;
    repeat match goal with
           | E : Qle_bool _ _ = true |- _ => apply Qle_bool_iff in E
           | E : _ [<=] _ = true |- _ => apply Q_leb_true in E
           end;
    rewrite ?Esl, ?Etp in *; q_ops;
    change (inject_Z (Z.of_nat 1)) with 1%Q in *;
    clear Esl Etp Hget Hr Hclose Hsame Ht Em Ereason Epnl;
    set (e := entry_price pos) in *; set (qty := position_size pos) in *;
    set (sl := STOP_LOSS_PERCENT config) in *;
    set (tp := TAKE_PROFIT_PERCENT config) in *; clearbody e qty sl tp.
  - assert (Hes : (0 <= e * sl)%Q) by (apply Qmult_le_0_compat; lra).
    assert (Hd : (price - e <= 0)%Q) by lra. clear - Hd Hq. nra.
  - assert (Hes : (0 <= e * tp)%Q) by (apply Qmult_le_0_compat; lra).
    assert (Hd : (0 <= price - e)%Q) by lra. clear - Hd Hq. nra.
  - assert (Hes : (0 <= e * sl)%Q) by (apply Qmult_le_0_compat; lra).
    assert (Hd : (e - price <= 0)%Q) by lra. clear - Hd Hq. nra.
  - assert (Hes : (0 <= e * tp)%Q) by (apply Qmult_le_0_compat; lra).
    assert (Hd : (0 <= e - price)%Q) by lra. clear - Hd Hq. nra.
Qed.

End ExitsQ.

Lemma exit_conditions_exclusive_witness :
  reachable btc_config 10000%Q short_state
  /\ (0 < entry_price short_position)%Q
  /\ ~ (stop_loss short_position [<=] 100%Q = true
        /\ 100%Q [<=] take_profit short_position = true).
Proof.
  assert (He : (0 < entry_price short_position)%Q) by reflexivity.
  split; [exact short_state_reachable|]. split; [exact He|].
  apply (exit_conditions_exclusive btc_config 10000%Q short_state "BTCUSDT"
           short_position 100%Q short_state_reachable eq_refl He).
  - vm_compute. discriminate.
  - reflexivity.
Defined.

Lemma exit_pnl_sign_witness :
  exists st' t,
    manage_positions btc_config short_state "BTCUSDT" 18800%Q 3%Z (0, 0) []
    = Some st'
    /\ trades_history st' = trades_history short_state ++ [t]
    /\ (reason t = "Stop Loss" -> (pnl t <= 0)%Q).
Proof.
  destruct (manage_positions btc_config short_state "BTCUSDT" 18800%Q 3%Z
              (0, 0) []) as [st'|] eqn:Em;
    [|vm_compute in Em; discriminate Em].
  destruct (manage_positions_trades _ _ _ _ _ _ _ _ Em)
    as [Hsame|(t & Ht & _)].
  - exfalso. vm_compute in Em. inversion Em. subst st'.
    vm_compute in Hsame. discriminate Hsame.
  - exists st', t. split; [reflexivity|]. split; [exact Ht|].
    assert (He : (0 < entry_price short_position)%Q) by reflexivity.
    assert (Hsl : (0 <= STOP_LOSS_PERCENT btc_config)%Q)
      by (vm_compute; discriminate).
    assert (Htp : (0 <= TAKE_PROFIT_PERCENT btc_config)%Q)
      by (vm_compute; discriminate).
    assert (Hq : (0 <= position_size short_position)%Q)
      by (vm_compute; discriminate).
    exact (proj1 (exit_pnl_sign btc_config 10000%Q short_state st' "BTCUSDT"
                    short_position 18800%Q 3%Z (0, 0) [] t
                    short_state_reachable eq_refl He Hsl Htp Hq Em Ht)).
Defined.

(** ** Cash flow in exact arithmetic *)

Lemma dict_del_absent {V} (k : string) (d : dict V) :
  dict_get k d = None -> dict_del k d = d.
Proof.
  induction d as [|[k1 v1] d IH]; simpl; [reflexivity|].
  destruct (String.eqb k k1); [discriminate|].
  intros E. now rewrite IH.
Qed.

Lemma dict_del_set_absent {V} (k : string) (v : V) (d : dict V) :
  dict_get k d = None -> dict_del k (dict_set k v d) = d.
Proof.
  induction d as [|[k1 v1] d IH]; simpl.
  - now rewrite String.eqb_refl.
  - destruct (String.eqb k k1) eqn:E; [discriminate|].
    intros Hget. simpl. rewrite E. now rewrite IH.
Qed.

Lemma total_cost_set_absent (k : string) (v : Position Q)
    (d : dict (Position Q)) :
  dict_get k d = None ->
  (total_cost (dict_set k v d) == total_cost d + cost v)%Q.
Proof.
  induction d as [|[k1 v1] d IH]; simpl.
  - intros _. ring.
  - destruct (String.eqb k k1); [discriminate|].
    intros Hget. simpl. rewrite (IH Hget). ring.
Qed.

Lemma total_cost_del (k : string) (pos : Position Q) (d : dict (Position Q)) :
  NoDup (dict_keys d) -> dict_get k d = Some pos ->
  (total_cost (dict_del k d) == total_cost d - cost pos)%Q.
Proof.
  induction d as [|[k1 v1] d IH]; simpl; [discriminate|].
  intros Hnd Hget. inversion Hnd as [|? ? Hnotin Hnd']; subst.
  destruct (String.eqb k k1) eqn:E.
  - inversion Hget. subst v1. apply String.eqb_eq in E. subst k1.
    rewrite dict_del_absent.
    + ring.
    + destruct (dict_get k d) as [v|] eqn:Hd; [|reflexivity].
      exfalso. apply Hnotin. clear - Hd.
      induction d as [|[k2 v2] d IH]; simpl in *; [discriminate|].
      destruct (String.eqb k k2) eqn:E2.
      * apply String.eqb_eq in E2. now left.
      * right. auto.
  - simpl. rewrite (IH Hnd' Hget). ring.
Qed.

Section CashFlowQ.
Variable config : TradingConfig Q.
Variable initial_balance : Q.

(** The quantity of a position is its reserved cost over its entry price. *)
Lemma reachable_quantity (st : State Q) :
  reachable config initial_balance st ->
  forall symbol pos,
    dict_get symbol (positions st) = Some pos ->
    (position_size pos * entry_price pos == cost pos)%Q.
Proof.
  induction 1 as [|st st' s sd price time info Hr IH Hop
                  |st st' s price time why Hr IH Hcl]; intros symbol pos Hget.
  - discriminate.
  - apply open_position_cases in Hop.
    destruct Hop as [->|(_ & _ & qty & Eq & ->)]; [eauto|].
    simpl in Hget. destruct (String.eqb s symbol) eqn:E.
    + apply String.eqb_eq in E. subst s.
      rewrite dict_get_set_same in Hget. inversion Hget. simpl.
      apply Q_div_some in Eq. destruct Eq as [Hne ->]. q_ops.
      field. exact Hne.
    + apply String.eqb_neq in E.
      rewrite dict_get_set_other in Hget by exact E. eauto.
  - apply close_position_cases in Hcl.
    destruct Hcl as [->|(pos' & t & _ & ->)]; [eauto|].
    simpl in Hget. destruct (String.eqb s symbol) eqn:E.
    + apply String.eqb_eq in E. subst s.
      rewrite dict_get_del_same in Hget. discriminate.
    + apply String.eqb_neq in E.
      rewrite dict_get_del_other in Hget by exact E. eauto.
Qed.

(** X14.  What a close pays back.  For a position of a run, closing a long
    position at price [p] credits [p * quantity] to the cash, and closing a
    short position credits [(2 * entry - p) * quantity]: a long close at a
    price and quantity that are not negative never lowers the cash, while a
    short close above twice the entry price does. *)
Theorem close_credit (st st' : State Q) (symbol : string) (pos : Position Q)
    (p : Q) (time : Z) (why : string) :
  reachable config initial_balance st ->
  dict_get symbol (positions st) = Some pos ->
  close_position st symbol p time why = Some st' ->
  (balance st'
   == balance st
      + match side pos with
        | BUY => p * position_size pos
        | SELL => (2 * entry_price pos - p) * position_size pos
        end)%Q
  /\ (side pos = BUY -> (0 <= p)%Q -> (0 <= position_size pos)%Q ->
      (balance st <= balance st')%Q)
  /\ (side pos = SELL -> (2 * entry_price pos < p)%Q ->
      (0 < position_size pos)%Q -> (balance st' < balance st)%Q).
Proof.
  intros Hr Hget Ec.
  pose proof (reachable_quantity st Hr symbol pos Hget) as Hq.
  unfold close_position in Ec. rewrite Hget in Ec.
  apply bind_some in Ec. destruct Ec as (pct & _ & Ec). inversion Ec.
  simpl. clear Ec. unfold position_pnl. q_ops.
  assert (Hb : (balance st
                + (cost pos
                   + match side pos with
                     | BUY => (p - entry_price pos) * position_size pos
                     | SELL => (entry_price pos - p) * position_size pos
                     end)
                == balance st
                   + match side pos with
                     | BUY => p * position_size pos
                     | SELL => (2 * entry_price pos - p) * position_size pos
                     end)%Q).
  { destruct (side pos); rewrite <- Hq; ring. }
  split; [exact Hb|]. split.
  - intros Es Hp Hqty. rewrite Hb, Es.
    assert ((0 <= p * position_size pos)%Q)
      by (apply Qmult_le_0_compat; assumption).
    lra.
  - intros Es Hp Hqty. rewrite Hb, Es.
    assert ((0 < (p - 2 * entry_price pos) * position_size pos)%Q)
      by (apply Qmult_lt_0_compat; lra).
    lra.
Qed.

(** X15.  Opening a position on a symbol that has none and closing it at
    the entry price restores the ledger: the cash is the cash before, the
    position table is the table before, and the only trace is at most one
    trade, of zero pnl. *)
Theorem open_close_round_trip (st st1 st2 : State Q) (symbol : string)
    (sd : Side) (price : Q) (time time2 : Z) (info : dict (Patterns Q))
    (why : string) :
  dict_get symbol (positions st) = None ->
  open_position config st symbol sd price time info = Some st1 ->
  close_position st1 symbol price time2 why = Some st2 ->
  (balance st2 == balance st)%Q
  /\ positions st2 = positions st
  /\ (trades_history st2 = trades_history st
      \/ exists t, trades_history st2 = trades_history st ++ [t]
                   /\ (pnl t == 0)%Q).
Proof.
  intros Hnone Hop Hcl. apply open_position_cases in Hop.
  destruct Hop as [->|(_ & _ & qty & _ & ->)].
  - unfold close_position in Hcl. rewrite Hnone in Hcl. inversion Hcl.
    split; [reflexivity|]. split; [reflexivity | now left].
  - unfold close_position in Hcl. simpl in Hcl.
    rewrite dict_get_set_same in Hcl.
    apply bind_some in Hcl. destruct Hcl as (pct & _ & Hcl).
    inversion Hcl. simpl. clear Hcl.
    rewrite (dict_del_set_absent _ _ _ Hnone).
    unfold position_pnl. simpl. split; [|split; [reflexivity|]].
    + destruct sd; ring.
    + right. eexists. split; [reflexivity|]. simpl.
      unfold position_pnl. simpl. destruct sd; ring.
Qed.

End CashFlowQ.

Lemma close_credit_witness :
  exists st',
    close_position short_state "BTCUSDT" 18800%Q 3%Z "Stop Loss" = Some st'
    /\ (balance st' < balance short_state)%Q.
Proof.
  destruct (close_position short_state "BTCUSDT" 18800%Q 3%Z "Stop Loss")
    as [st'|] eqn:E; [|vm_compute in E; discriminate E].
  exists st'. split; [reflexivity|].
  destruct (close_credit btc_config 10000%Q short_state st' "BTCUSDT"
              short_position 18800%Q 3%Z "Stop Loss" short_state_reachable
              eq_refl E) as (_ & _ & Hshort).
  apply Hshort; reflexivity.
Defined.

Lemma open_close_round_trip_witness :
  exists st2,
    dict_get "BTCUSDT" (positions (init_state 10000%Q)) = None
    /\ open_position btc_config (init_state 10000%Q) "BTCUSDT" SELL 94%Q 2%Z []
       = Some short_state
    /\ close_position short_state "BTCUSDT" 94%Q 3%Z "End of Backtest"
       = Some st2
    /\ (balance st2 == 10000)%Q
    /\ positions st2 = [].
Proof.
  destruct (close_position short_state "BTCUSDT" 94%Q 3%Z "End of Backtest")
    as [st2|] eqn:E; [|vm_compute in E; discriminate E].
  exists st2.
  assert (Hnone : dict_get "BTCUSDT" (positions (init_state 10000%Q)) = None)
    by reflexivity.
  assert (Hop : open_position btc_config (init_state 10000%Q) "BTCUSDT" SELL
                  94%Q 2%Z [] = Some short_state) by reflexivity.
  split; [exact Hnone|]. split; [exact Hop|]. split; [reflexivity|].
  destruct (open_close_round_trip btc_config _ _ _ _ _ _ _ _ _ _
              Hnone Hop E) as (Hb & Hp & _).
  split; [exact Hb | exact Hp].
Defined.

(** ** The books of a run *)

Lemma sum_snoc {R} `{Arith R} (l : list R) (x : R) :
  sum (l ++ [x]) = sum l [+] x.
Proof. unfold sum. rewrite fold_left_app. reflexivity. Qed.

Section BooksQ.
Context `{IndexLookup}.
Variable config : TradingConfig Q.
Variable initial_balance : Q.

Lemma close_balanced (st st' : State Q) (symbol : string) (p : Q) (time : Z)
    (why : string) :
  ledger_balanced initial_balance st ->
  close_position st symbol p time why = Some st' ->
  ledger_balanced initial_balance st'.
Proof.
  intros [Hnd Hb] E. unfold close_position in E.
  destruct (dict_get symbol (positions st)) as [pos|] eqn:Hget.
  - apply bind_some in E. destruct E as (pct & _ & E). inversion E.
    split; cbn [balance positions trades_history].
    + now apply dict_del_keys_nodup.
    + rewrite (total_cost_del _ _ _ Hnd Hget), map_app. cbn [map].
      rewrite sum_snoc. cbn [pnl closed_trade]. q_ops. set (s := sum (map pnl (trades_history st))) in *.
      set (tc := total_cost (positions st)) in *.
      set (x := position_pnl pos p). clearbody s tc x. lra.
  - inversion E. subst. now split.
Qed.

Lemma open_balanced (st st' : State Q) (symbol : string) (sd : Side)
    (price : Q) (time : Z) (info : dict (Patterns Q)) :
  dict_get symbol (positions st) = None ->
  ledger_balanced initial_balance st ->
  open_position config st symbol sd price time info = Some st' ->
  ledger_balanced initial_balance st'.
Proof.
  intros Hnone [Hnd Hb] E. apply open_position_cases in E.
  destruct E as [->|(_ & _ & qty & _ & ->)]; [now split|].
  split; cbn [balance positions trades_history].
  - now apply dict_set_keys_nodup.
  - rewrite (total_cost_set_absent _ _ _ Hnone). cbn [cost]. q_ops.
    set (s := sum (map pnl (trades_history st))) in *.
    set (tc := total_cost (positions st)) in *.
    set (c := (balance st * POSITION_SIZE config)%Q). clearbody s tc c. lra.
Qed.

Lemma manage_balanced (st st' : State Q) (symbol : string) (price : Q)
    (time : Z) (signals : nat * nat) (by_tf : dict (Patterns Q)) :
  ledger_balanced initial_balance st ->
  manage_positions config st symbol price time signals by_tf = Some st' ->
  ledger_balanced initial_balance st'.
Proof.
  intros Hb. unfold manage_positions.
  destruct (dict_get symbol (positions st)) as [pos|] eqn:Hget.
  - destruct (side pos); case_if; intros E;
      solve [ inversion E; subst; exact Hb
            | eapply close_balanced; eauto ].
  - case_if; intros E;
      solve [ inversion E; subst; exact Hb
            | eapply open_balanced; eauto ].
Qed.

Lemma simulate_balanced (historical_data : dict (DataFrame Q))
    (st : State Q) (hist : list (Snapshot Q)) :
  simulate config initial_balance historical_data = Some (st, hist) ->
  ledger_balanced initial_balance st.
Proof.
  intros E. unfold simulate in E.
  apply bind_some in E. destruct E as (timeframes & _ & E).
  apply bind_some in E. destruct E as (acc & Eacc & E).
  apply bind_some in E. destruct E as (final_prices & _ & E).
  apply bind_some in E. destruct E as (st1 & Est & E).
  inversion E. subst st1.
  assert (Hacc : ledger_balanced initial_balance (fst acc)).
  { revert Eacc.
    apply (for_each_invariant
             (fun a => ledger_balanced initial_balance (fst a))).
    - intros symbol s s' Hs Es. unfold symbol_step in Es.
      apply bind_some in Es. destruct Es as (tf0 & _ & Es).
      apply bind_some in Es. destruct Es as (primary & _ & Es).
      revert Es.
      apply (for_each_invariant
               (fun a => ledger_balanced initial_balance (fst a)));
        [|exact Hs].
      intros i a a' Ha Eb. unfold bar_step in Eb.
      do 5 (apply bind_some in Eb; destruct Eb as (? & _ & Eb)).
      apply bind_some in Eb. destruct Eb as (st2 & Em & Eb).
      inversion Eb. simpl. eapply manage_balanced; eauto.
    - split; simpl; [constructor|]. unfold sum. simpl. ring. }
  revert Est. apply for_each_invariant; [|exact Hacc].
  intros symbol s s' Hs Ecl. unfold final_close_step in Ecl.
  do 4 (apply bind_some in Ecl; destruct Ecl as (? & _ & Ecl)).
  eapply close_balanced; eauto.
Qed.

(** X16.  The books of a run balance.  In exact arithmetic, a run that
    returns reports a final balance equal to the initial balance plus the
    total pnl of its trades: cash moves only by reserving a cost at an open
    and by returning cost plus pnl at a close. *)
Theorem run_accounting (historical_data : dict (DataFrame Q)) (r : Results Q) :
  run_backtest config initial_balance historical_data = Some r ->
  (final_balance (metrics r) == initial_balance + total_pnl (metrics r))%Q
  /\ total_pnl (metrics r) = sum (map pnl (trades r))
  /\ total_trades (metrics r) = List.length (trades r).
Proof.
  intros E. unfold run_backtest in E.
  apply bind_some in E. destruct E as ([st hist] & Esim & E).
  apply bind_some in E. destruct E as (m & Em & E).
  inversion E. simpl in *. clear E.
  destruct (calculate_metrics_fields _ _ _ Em) as (Ef & Ep & En).
  split; [|split; assumption].
  destruct (simulate_balanced _ _ _ Esim) as [_ Hb].
  rewrite (simulate_positions_empty config initial_balance _ _ _ Esim) in Hb.
  simpl in Hb. rewrite Ef, Ep. rewrite <- Hb. ring.
Qed.

End BooksQ.

Lemma run_accounting_witness :
  exists r,
    run_backtest (H0 := nearest_lookup) btc_config 10000%Q spike_data = Some r
    /\ (final_balance (metrics r) == 10000 + total_pnl (metrics r))%Q.
Proof.
  destruct (run_backtest (H0 := nearest_lookup) btc_config 10000%Q spike_data)
    as [r|] eqn:E; [|vm_compute in E; discriminate E].
  exists r. split; [reflexivity|].
  exact (proj1 (run_accounting (H := nearest_lookup) btc_config 10000%Q
                  spike_data r E)).
Defined.

(** ** Metrics in exact arithmetic *)

Lemma of_nat_pos (k : nat) : (0 < of_nat (S k))%Q.
Proof.
  q_ops. change 0%Q with (inject_Z 0). rewrite <- Zlt_Qlt. lia.
Qed.

Lemma pymax_nonneg (m dd : Q) : (0 <= m)%Q -> (0 <= pymax m dd)%Q.
Proof.
  intros Hm. unfold pymax. destruct (m [<] dd) eqn:E; [|exact Hm].
  apply Q_ltb_true in E. lra.
Qed.

(** The drawdown loop never divides by zero from a positive peak. *)
Lemma drawdown_loop (curve : list Q) :
  forall m peak, (0 <= m)%Q -> (0 < peak)%Q ->
  exists m' peak',
    for_each curve drawdown_step (m, peak) = Some (m', peak') /\ (0 <= m')%Q.
Proof.
  induction curve as [|bal curve IH]; intros m peak Hm Hp.
  - exists m, peak. split; [reflexivity | exact Hm].
  - cbn [for_each]. unfold drawdown_step at 1. cbn [fst snd].
    destruct (peak [<] bal) eqn:E.
    + apply Q_ltb_true in E.
      rewrite Q_div_pos by lra. cbn [bind].
      apply IH; [apply pymax_nonneg; exact Hm | lra].
    + rewrite Q_div_pos by exact Hp. cbn [bind].
      apply IH; [apply pymax_nonneg; exact Hm | exact Hp].
Qed.

Section MetricsQ.
Variable initial_balance : Q.

Lemma calculate_metrics_Q (st : State Q) :
  (0 < initial_balance)%Q ->
  exists m,
    calculate_metrics initial_balance st = Some m
    /\ profitable_trades m <= total_trades m
    /\ (0 <= win_rate m <= 1)%Q
    /\ (0 <= max_drawdown m)%Q.
Proof.
  intros Hb. unfold calculate_metrics.
  destruct (trades_history st) as [|t0 l] eqn:Et.
  - eexists. split; [reflexivity|]. simpl. split; [lia|].
    split; [split|]; vm_compute; discriminate.
  - cbv beta iota zeta. cbn [map List.length Nat.ltb Nat.leb].
    rewrite !Q_div_pos by apply of_nat_pos. cbn [bind].
    destruct (drawdown_loop (balance_curve initial_balance (t0 :: l))
                (of_nat 0) initial_balance) as (m' & peak' & Edd & Hm');
      [vm_compute; discriminate | exact Hb |].
    rewrite Edd. cbn [bind fst].
    set (wins := List.length
                   (filter (fun t => of_nat 0 [<] pnl t) (t0 :: l))).
    assert (Hwins : wins <= S (List.length l))
      by (unfold wins; apply (filter_length_le _ (t0 :: l))).
    assert (Hrate : (0 <= of_nat wins / of_nat (S (List.length l)) <= 1)%Q).
    { pose proof (of_nat_pos (List.length l)) as Hn. split.
      - apply Qle_shift_div_l; [exact Hn|]. q_ops.
        rewrite Qmult_0_l. change 0%Q with (inject_Z 0).
        rewrite <- Zle_Qle. lia.
      - apply Qle_shift_div_r; [exact Hn|]. q_ops.
        rewrite Qmult_1_l. rewrite <- Zle_Qle. lia. }
    assert (Hdd : (0 <= m' * of_nat 100)%Q)
      by (apply Qmult_le_0_compat; [exact Hm' | vm_compute; discriminate]).
    rewrite (Q_div_pos _ _ Hb).
    destruct (of_nat 0
              [<] sum (map (fun t => abs (pnl t))
                         (filter (fun t => pnl t [<] of_nat 0) (t0 :: l))))
      eqn:El.
    + apply Q_ltb_true in El. rewrite (Q_div_pos _ _ El). cbn [bind].
      eexists. split; [reflexivity|].
      cbn [profitable_trades total_trades win_rate max_drawdown].
      split; [exact Hwins|]. split; [exact Hrate | exact Hdd].
    + cbn [bind]. eexists. split; [reflexivity|].
      cbn [profitable_trades total_trades win_rate max_drawdown].
      split; [exact Hwins|]. split; [exact Hrate | exact Hdd].
Qed.

(** X17.  With a positive initial balance the metrics calculation never
    raises, whatever the trades: no division of it meets a zero divisor.
    It counts every trade, and no more winners than trades. *)
Theorem calculate_metrics_total (st : State Q) :
  (0 < initial_balance)%Q ->
  exists m,
    calculate_metrics initial_balance st = Some m
    /\ total_trades m = List.length (trades_history st)
    /\ profitable_trades m <= total_trades m.
Proof.
  intros Hb. destruct (calculate_metrics_Q st Hb) as (m & Em & Hw & _).
  exists m. split; [exact Em|]. split; [|exact Hw].
  now destruct (calculate_metrics_fields _ _ _ Em) as (_ & _ & En).
Qed.

(** X18.  With a positive initial balance the reported win rate lies
    between 0 and 1 and the reported maximum drawdown is not negative. *)
Theorem metrics_bounds (st : State Q) (m : Metrics Q) :
  (0 < initial_balance)%Q ->
  calculate_metrics initial_balance st = Some m ->
  (0 <= win_rate m <= 1)%Q /\ (0 <= max_drawdown m)%Q.
Proof.
  intros Hb Em. destruct (calculate_metrics_Q st Hb) as (m' & Em' & _ & Hr & Hd).
  rewrite Em in Em'. inversion Em'. subst m'. now split.
Qed.

End MetricsQ.

Lemma calculate_metrics_total_witness :
  (0 < 10000)%Q
  /\ exists m,
       calculate_metrics 10000%Q profit_state = Some m
       /\ total_trades m = 1.
Proof.
  assert (Hb : (0 < 10000)%Q) by reflexivity.
  split; [exact Hb|].
  destruct (calculate_metrics_total 10000%Q profit_state Hb)
    as (m & Em & En & _).
  exists m. split; [exact Em|]. rewrite En. reflexivity.
Defined.

Lemma metrics_bounds_witness :
  exists m,
    (0 < 10000)%Q
    /\ calculate_metrics 10000%Q (spike_state 5) = Some m
    /\ (0 <= max_drawdown m)%Q.
Proof.
  destruct (calculate_metrics 10000%Q (spike_state 5)) as [m|] eqn:E;
    [|vm_compute in E; discriminate E].
  exists m. assert (Hb : (0 < 10000)%Q) by reflexivity.
  split; [exact Hb|]. split; [reflexivity|].
  exact (proj2 (metrics_bounds 10000%Q (spike_state 5) m Hb E)).
Defined.

(** ** The trailing window *)

Section TrailingWindow.
Context {R : Type} `{Arith R} `{IndexLookup}.
Variable config : TradingConfig R.

(** X19.  The window handed to the pattern analyser for one timeframe is
    made of consecutive candles of that timeframe's series, ends at the
    position the nearest-timestamp lookup returned, and holds
    [min(position + 1, 100)] candles, so never more than 100.  When the
    lookup returns a negative position the timeframe is skipped and casts no
    vote. *)
Theorem analysis_window_bounded (historical_data : dict (DataFrame R))
    (symbol timeframe : string) (current_time idx : Z) (df : DataFrame R)
    (by_tf : dict (Patterns R)) :
  dict_get (data_key symbol timeframe) historical_data = Some df ->
  get_indexer_nearest (map timestamp df) current_time = Some idx ->
  ((idx < 0)%Z ->
   analyze_timeframe config historical_data symbol current_time timeframe by_tf
   = Some by_tf)
  /\ ((0 <= idx)%Z ->
      exists w,
        analyze_timeframe config historical_data symbol current_time timeframe
          by_tf
        = (p <- analyze_patterns config w ;; Some (dict_set timeframe p by_tf))
        /\ List.length w <= 100
        /\ (Z.to_nat idx < List.length df ->
            List.length w = Nat.min (Z.to_nat idx + 1) 100)
        /\ (forall k c, nth_error w k = Some c ->
              nth_error df (Z.to_nat idx + 1 - Nat.min (Z.to_nat idx + 1) 100 + k)
              = Some c
              /\ Z.to_nat idx + 1 - Nat.min (Z.to_nat idx + 1) 100 + k
                 <= Z.to_nat idx)).
Proof.
  intros Hget Hidx. unfold analyze_timeframe. rewrite Hget. cbn [bind].
  rewrite Hidx. cbn [bind]. split.
  - intros Hneg. replace (0 <=? idx)%Z with false
      by (symmetry; apply Z.leb_gt; exact Hneg). reflexivity.
  - intros Hpos. replace (0 <=? idx)%Z with true
      by (symmetry; apply Z.leb_le; exact Hpos).
    eexists. split; [reflexivity|].
    set (a := Z.to_nat (idx - Z.min (idx + 1) 100 + 1)).
    set (b := Z.to_nat (idx + 1)).
    assert (Ha : a = Z.to_nat idx + 1 - Nat.min (Z.to_nat idx + 1) 100)
      by (unfold a; lia).
    assert (Hb : b = Z.to_nat idx + 1) by (unfold b; lia).
    unfold slice. split; [|split].
    + rewrite length_firstn. lia.
    + intros Hlt. rewrite length_firstn, length_skipn. lia.
    + intros k c Hk. rewrite nth_error_firstn in Hk.
      destruct (k <? b - a) eqn:E; [|discriminate].
      apply Nat.ltb_lt in E. rewrite nth_error_skipn in Hk.
      rewrite <- Ha. split; [exact Hk | lia].
Qed.

End TrailingWindow.

Lemma analysis_window_bounded_witness :
  dict_get (data_key "BTCUSDT" "1h") spike_data = Some spike_bars
  /\ get_indexer_nearest (IndexLookup := nearest_lookup)
       (map timestamp spike_bars) 4%Z = Some 4%Z
  /\ exists w,
       analyze_timeframe (H0 := nearest_lookup) btc_config spike_data "BTCUSDT"
         4%Z "1h" []
       = (p <- analyze_patterns btc_config w ;; Some (dict_set "1h" p []))
       /\ List.length w = 5.
Proof.
  assert (Hget : dict_get (data_key "BTCUSDT" "1h") spike_data
                 = Some spike_bars) by reflexivity.
  assert (Hidx : get_indexer_nearest (IndexLookup := nearest_lookup)
                   (map timestamp spike_bars) 4%Z = Some 4%Z) by reflexivity.
  split; [exact Hget|]. split; [exact Hidx|].
  destruct (analysis_window_bounded (H0 := nearest_lookup) btc_config
              spike_data "BTCUSDT" "1h" 4%Z 4%Z spike_bars [] Hget Hidx)
    as [_ Hwin].
  destruct (Hwin ltac:(lia)) as (w & E & _ & Hlen & _).
  exists w. split; [exact E|]. rewrite Hlen; [reflexivity | simpl; lia].
Defined.
